(** * The signup / unsubscribe / feedback worker: a shallow embedding

    The repository ships a Cloudflare Worker (worker/index.js) in several
    revisions.  Each revision is a JavaScript module exporting an async
    [fetch] handler which validates a request, forwards at most one HTTP call
    to the e-mail provider and maps the provider's answer to a local JSON
    envelope.

    The embedding keeps the shape of the code:
    - JavaScript strings are [string]s of code units; the handlers are
      modelled over code units below 256 (Latin-1), on which [trim],
      [toLowerCase] and [encodeURIComponent] are written out exactly; the way
      of an address through [handleSignup] is modelled a second time over
      UTF-16 code units of any size (module [Utf16]), where the case mapping
      looks at the context of a letter;
    - values coming out of [JSON.parse] are an inductive type [JSON], and
      [undefined] is the [None] of [option JSON];
    - an [async] function is a tree of type [Async]: it returns, throws, or
      awaits the provider ([fetch]) and continues with the answer;
    - a header object is a finite map from header names to values. *)

From Stdlib Require Import ZArith Ascii String List Bool Lia ZifyBool.
From Stdlib Require Import Numbers.DecimalString.
From stdpp Require Import base option strings gmap.

Set Default Proof Using "Type".
Local Open Scope Z_scope.
#[local] Set Warnings "-register-all".

(** ** JavaScript strings *)

Module JsString.

(** The double quote, which a string literal of this file never holds. *)
Definition dquote : ascii := "034"%char.
Definition squote : ascii := "039"%char.
Definition LF : ascii := "010"%char.

Definition code (c : ascii) : N := N_of_ascii c.

Definition between (lo hi : N) (c : ascii) : bool :=
  ((lo <=? code c) && (code c <=? hi))%N.

(** ECMAScript WhiteSpace and LineTerminator code points below 256:
    TAB, LF, VT, FF, CR, SPACE and NO-BREAK SPACE. *)
Definition is_white_space (c : ascii) : bool :=
  between 9 13 c || (code c =? 32)%N || (code c =? 160)%N.

(** [String.prototype.trimStart], [trimEnd] and [trim]. *)
Fixpoint trimStart (s : string) : string :=
  match s with
  | EmptyString => EmptyString
  | String c r => if is_white_space c then trimStart r else s
  end.

Fixpoint trimEnd (s : string) : string :=
  match s with
  | EmptyString => EmptyString
  | String c r =>
      match trimEnd r with
      | EmptyString => if is_white_space c then EmptyString else String c EmptyString
      | r' => String c r'
      end
  end.

Definition trim (s : string) : string := trimEnd (trimStart s).

(** [String.prototype.toLowerCase] on Latin-1: A-Z and the accented capitals
    U+00C0..U+00DE (U+00D7, the multiplication sign, apart) move up by 32. *)
Definition lower_char (c : ascii) : ascii :=
  if between 65 90 c || (between 192 222 c && negb (code c =? 215)%N)
  then ascii_of_N (code c + 32)
  else c.

Fixpoint toLowerCase (s : string) : string :=
  match s with
  | EmptyString => EmptyString
  | String c r => String (lower_char c) (toLowerCase r)
  end.

(** [s.includes(sub)]: [sub] occurs in [s] at some position. *)
Fixpoint includes (s sub : string) : bool :=
  String.prefix sub s ||
  match s with
  | EmptyString => false
  | String _ r => includes r sub
  end.

(** [s.slice(0, n)]. *)
Fixpoint slice0 (n : nat) (s : string) : string :=
  match n, s with
  | S n', String c r => String c (slice0 n' r)
  | _, _ => EmptyString
  end.

(** [s.replace(re, f)] for a global regular expression [re] that is a
    character class: every character of the class is replaced by what the
    callback returns for it, the others are kept. *)
Fixpoint replace_class (cls : ascii -> bool) (f : ascii -> string) (s : string)
  : string :=
  match s with
  | EmptyString => EmptyString
  | String c r =>
      if cls c then f c +:+ replace_class cls f r
      else String c (replace_class cls f r)
  end.

(** [s.replace(/\n/g, '<br>')]. *)
Definition replace_newlines (s : string) : string :=
  replace_class (Ascii.eqb LF) (fun _ => "<br>") s.

Definition hex_digit (n : N) : ascii :=
  if (n <? 10)%N then ascii_of_N (48 + n) else ascii_of_N (55 + n).

Definition percent_byte (b : N) : string :=
  String "%" (String (hex_digit (b / 16)) (String (hex_digit (b mod 16)) EmptyString)).

(** The characters [encodeURIComponent] leaves alone:
    A-Z a-z 0-9 - _ . ! ~ * ' ( ) *)
Definition uri_unreserved (c : ascii) : bool :=
  between 65 90 c || between 97 122 c || between 48 57 c ||
  existsb (Ascii.eqb c)
    ["-"; "_"; "."; "!"; "~"; "*"; squote; "("; ")"]%char.

(** Every other code unit is written as the percent-encoded bytes of its
    UTF-8 form: one byte below 128, two bytes from 128 to 255. *)
Definition encode_char (c : ascii) : string :=
  if uri_unreserved c then String c EmptyString
  else if (code c <? 128)%N then percent_byte (code c)
  else percent_byte (192 + code c / 64) +:+ percent_byte (128 + code c mod 64).

Fixpoint encodeURIComponent (s : string) : string :=
  match s with
  | EmptyString => EmptyString
  | String c r => encode_char c +:+ encodeURIComponent r
  end.

End JsString.

Import JsString.

(** ** JavaScript values, exceptions and asynchronous code *)

Module Js.

(** What [JSON.parse] produces.  A number is an integer (of magnitude below
    2^53, which prints in plain decimal); fractions are floating point and no
    handler computes with a number.  The fields of an object are its own
    properties in insertion order, with pairwise distinct keys, none of
    which is an array index (JavaScript lists those first) and none of which
    is [toString] (the conversion of such an object to a string throws). *)
Inductive JSON : Type :=
  | JNull
  | JBool (b : bool)
  | JNum (n : Z)
  | JStr (s : string)
  | JArr (items : list JSON)
  | JObj (fields : list (string * JSON)).

(** A JavaScript value of the handlers: [None] is [undefined]. *)
Definition jsval : Type := option JSON.
Definition undefined : jsval := None.

(** ToBoolean. *)
Definition truthy (v : jsval) : bool :=
  match v with
  | None | Some JNull => false
  | Some (JBool b) => b
  | Some (JNum n) => negb (n =? 0)
  | Some (JStr s) => negb (String.eqb s "")
  | Some (JArr _) | Some (JObj _) => true
  end.

Fixpoint lookup_field (k : string) (fields : list (string * JSON)) : jsval :=
  match fields with
  | [] => None
  | (k', v) :: rest => if String.eqb k k' then Some v else lookup_field k rest
  end.

Definition string_of_Z (n : Z) : string := NilZero.string_of_int (Z.to_int n).

Fixpoint join (sep : string) (l : list string) : string :=
  match l with
  | [] => ""
  | [x] => x
  | x :: rest => x +:+ sep +:+ join sep rest
  end.

(** ToString, as a template literal applies it, on the values described
    above. *)
Fixpoint to_string (j : JSON) : string :=
  match j with
  | JNull => "null"
  | JBool true => "true"
  | JBool false => "false"
  | JNum n => string_of_Z n
  | JStr s => s
  | JArr items =>
      join ","
        ((fix each (l : list JSON) : list string :=
            match l with
            | [] => []
            | JNull :: rest => "" :: each rest
            | x :: rest => to_string x :: each rest
            end) items)
  | JObj _ => "[object Object]"
  end.

Definition ToString (v : jsval) : string :=
  match v with
  | None => "undefined"
  | Some j => to_string j
  end.

(** [JSON.stringify]: the quoting of a string and the serialization of a
    value, on the values described above. *)
Definition hex_lower (n : N) : ascii :=
  if (n <? 10)%N then ascii_of_N (48 + n) else ascii_of_N (87 + n).

Definition quote_char (c : ascii) : string :=
  if Ascii.eqb c dquote then String "\" (String dquote "")
  else if Ascii.eqb c "\" then "\\"
  else if (code c =? 8)%N then "\b"
  else if (code c =? 9)%N then "\t"
  else if (code c =? 10)%N then "\n"
  else if (code c =? 12)%N then "\f"
  else if (code c =? 13)%N then "\r"
  else if (code c <? 32)%N
       then "\u00" +:+ String (hex_lower (code c / 16))
                        (String (hex_lower (code c mod 16)) "")
  else String c "".

Fixpoint quote_body (s : string) : string :=
  match s with
  | EmptyString => EmptyString
  | String c r => quote_char c +:+ quote_body r
  end.

Definition quote (s : string) : string :=
  String dquote (quote_body s +:+ String dquote "").

Fixpoint JSON_stringify (j : JSON) : string :=
  match j with
  | JNull => "null"
  | JBool true => "true"
  | JBool false => "false"
  | JNum n => string_of_Z n
  | JStr s => quote s
  | JArr items =>
      "[" +:+ join ","
        ((fix each (l : list JSON) : list string :=
            match l with
            | [] => []
            | x :: rest => JSON_stringify x :: each rest
            end) items) +:+ "]"
  | JObj fields =>
      "{" +:+ join ","
        ((fix each (l : list (string * JSON)) : list string :=
            match l with
            | [] => []
            | (k, v) :: rest => (quote k +:+ ":" +:+ JSON_stringify v) :: each rest
            end) fields) +:+ "}"
  end.

(** An object literal as [JSON.stringify] sees it: a property whose value is
    [undefined] is left out. *)
Fixpoint defined_props (props : list (string * jsval)) : list (string * JSON) :=
  match props with
  | [] => []
  | (k, None) :: rest => defined_props rest
  | (k, Some v) :: rest => (k, v) :: defined_props rest
  end.

Definition object (props : list (string * jsval)) : JSON :=
  JObj (defined_props props).

(** *** Exceptions and the provider *)

Inductive exn : Type := SyntaxError | TypeError.

(** The call the worker makes to the provider with the global [fetch]. *)
Record UpRequest : Type := mkUpRequest {
  up_url : string;
  up_method : string;
  up_headers : gmap string string;
  up_body : string
}.

(** What the provider answers: a status and a body, which [response.json()]
    parses ([None]: the body is not JSON and [json()] rejects with a
    SyntaxError). *)
Record UpResponse : Type := mkUpResponse {
  up_status : Z;
  up_json : option JSON
}.

(** [response.ok]: the status is in the range 200-299. *)
Definition ok (r : UpResponse) : bool :=
  (200 <=? up_status r) && (up_status r <=? 299).

(** The promise [fetch] returns rejects (a network failure, a TypeError) or
    resolves with a response, whatever its status. *)
Inductive fetched : Type :=
  | Rejected
  | Answered (r : UpResponse).

(** *** Asynchronous code

    An [async] function either returns, throws, or awaits a call to the
    provider and goes on with its outcome. *)
Inductive Async (A : Type) : Type :=
  | Return (a : A)
  | Throw (e : exn)
  | Fetch (q : UpRequest) (k : fetched -> Async A).
Arguments Return {A} a.
Arguments Throw {A} e.
Arguments Fetch {A} q k.

Fixpoint bind {A B : Type} (m : Async A) (f : A -> Async B) : Async B :=
  match m with
  | Return a => f a
  | Throw e => Throw e
  | Fetch q k => Fetch q (fun r => bind (k r) f)
  end.

(** [try { m } catch (error) { h error }]. *)
Fixpoint try_catch {A : Type} (m : Async A) (h : exn -> Async A) : Async A :=
  match m with
  | Return a => Return a
  | Throw e => h e
  | Fetch q k => Fetch q (fun r => try_catch (k r) h)
  end.

#[export] Instance Async_ret : MRet Async := @Return.
#[export] Instance Async_bind : MBind Async := fun A B f m => bind m f.

(** [await fetch(url, init)]. *)
Definition await_fetch (q : UpRequest) : Async UpResponse :=
  Fetch q (fun r =>
    match r with
    | Rejected => Throw TypeError
    | Answered resp => Return resp
    end).

(** [await response.json()]. *)
Definition response_json (r : UpResponse) : Async JSON :=
  match up_json r with
  | Some j => Return j
  | None => Throw SyntaxError
  end.

(** How an invocation ends. *)
Inductive completion (A : Type) : Type :=
  | Returned (a : A)
  | Threw (e : exn).
Arguments Returned {A} a.
Arguments Threw {A} e.

(** Running an [async] function against a provider: the calls made, each with
    its outcome, in order, and how the function ends. *)
Fixpoint run {A : Type} (provider : UpRequest -> fetched) (m : Async A)
  : list (UpRequest * fetched) * completion A :=
  match m with
  | Return a => ([], Returned a)
  | Throw e => ([], Threw e)
  | Fetch q k =>
      let r := provider q in
      let '(calls, c) := run provider (k r) in
      ((q, r) :: calls, c)
  end.

(** *** Property reads and method calls on a value of unknown type *)

(** [v.k] for a parsed value [v] and a name [k] that is no built-in property
    ([email], [message], [type]): reading a property of [null] throws. *)
Definition get (v : JSON) (k : string) : Async jsval :=
  match v with
  | JNull => Throw TypeError
  | JObj fields => Return (lookup_field k fields)
  | _ => Return undefined
  end.

(** [v.trim()]: only a string has the method. *)
Definition call_trim (v : JSON) : Async string :=
  match v with
  | JStr s => Return (trim s)
  | _ => Throw TypeError
  end.

(** [v.includes(x)] for a string [x]: a substring test on a string, a
    membership test on an array, not a function on anything else. *)
Definition call_includes (v : JSON) (x : string) : Async bool :=
  match v with
  | JStr s => Return (includes s x)
  | JArr items =>
      Return (existsb (fun i => match i with
                                | JStr s => String.eqb s x
                                | _ => false
                                end) items)
  | _ => Throw TypeError
  end.

(** [v.replace(re, f)] for a global character-class [re]: only a string has
    the method.  What the callback returns is turned into a string. *)
Definition call_replace (v : JSON) (cls : ascii -> bool) (f : ascii -> jsval)
  : Async string :=
  match v with
  | JStr s => Return (replace_class cls (fun c => ToString (f c)) s)
  | _ => Throw TypeError
  end.

(** [v || d]. *)
Definition or_else (v : jsval) (d : jsval) : jsval :=
  if truthy v then v else d.

End Js.

Import Js.

(** ** What the revisions of the worker share *)

Module Worker.

(** A string literal of this file writes a backquote where the source has a
    double quote; [dq] puts the double quotes back. *)
Definition dq (s : string) : string :=
  replace_class (Ascii.eqb "`") (fun _ => String dquote "") s.

(** The incoming request, as the handlers read it: [request.method], the
    [pathname] of [new URL(request.url)], [url.searchParams.get('email')]
    ([None] for [null]) and what [request.json()] resolves to ([None]: the
    body is not JSON and the promise rejects with a SyntaxError). *)
Record Request : Type := mkRequest {
  method : string;
  pathname : string;
  searchParams_email : option string;
  json : option JSON
}.

(** [await request.json()]. *)
Definition request_json (request : Request) : Async JSON :=
  match json request with
  | Some j => Return j
  | None => Throw SyntaxError
  end.

(** The bindings of [env]; one that is not set reads as [undefined]. *)
Record Env : Type := mkEnv {
  RESEND_API_KEY : option string;
  RESEND_AUDIENCE_ID : option string;
  ADMIN_EMAIL : option string;
  FORWARD_EMAIL : option string
}.

Definition str (v : option string) : jsval := JStr <$> v.

Record Response : Type := mkResponse {
  status : Z;
  headers : gmap string string;
  body : option string
}.

(** [new Response(body, { status, headers })]; the status is 200 when the
    init object has none. *)
Definition new_Response (body : option string) (status : option Z)
    (headers : gmap string string) : Response :=
  mkResponse (default 200 status) headers body.

Definition getUnsubscribePageHTML : string := dq
"<!DOCTYPE html>
<html lang=`en`>
<head>
  <meta charset=`UTF-8`>
  <meta name=`viewport` content=`width=device-width, initial-scale=1.0`>
  <title>Unsubscribe - 50-Point Alerts</title>
  <style>
    * { box-sizing: border-box; margin: 0; padding: 0; }
    body {
      font-family: -apple-system, BlinkMacSystemFont, 'Segoe UI', Roboto, sans-serif;
      background: #f7f7f7;
      min-height: 100vh;
      display: flex;
      align-items: center;
      justify-content: center;
      padding: 20px;
    }
    .card {
      background: white;
      border-radius: 12px;
      padding: 40px;
      max-width: 400px;
      width: 100%;
      box-shadow: 0 4px 20px rgba(0,0,0,0.08);
      text-align: center;
    }
    h1 { color: #1F1F1F; font-size: 24px; margin-bottom: 12px; }
    p { color: #666; font-size: 14px; margin-bottom: 24px; }
    input {
      width: 100%;
      padding: 14px 16px;
      border: 2px solid #e0e0e0;
      border-radius: 8px;
      font-size: 16px;
      margin-bottom: 16px;
    }
    input:focus { outline: none; border-color: #FF3008; }
    button {
      width: 100%;
      padding: 14px;
      background: #FF3008;
      color: white;
      border: none;
      border-radius: 8px;
      font-size: 16px;
      font-weight: 600;
      cursor: pointer;
    }
    button:hover { background: #E02A07; }
    button:disabled { background: #ccc; cursor: not-allowed; }
    .message { margin-top: 16px; padding: 12px; border-radius: 6px; font-size: 14px; }
    .success { background: #d4edda; color: #155724; }
    .error { background: #f8d7da; color: #721c24; }
    .back-link { margin-top: 20px; }
    .back-link a { color: #FF3008; text-decoration: none; font-size: 14px; }
  </style>
</head>
<body>
  <div class=`card`>
    <h1>Unsubscribe</h1>
    <p>Enter your email to unsubscribe from 50-Point Alerts.</p>
    <form id=`unsubscribe-form`>
      <input type=`email` id=`email` placeholder=`your@email.com` required>
      <button type=`submit` id=`submit-btn`>Unsubscribe</button>
    </form>
    <div id=`message` class=`message` style=`display: none;`></div>
    <div class=`back-link`>
      <a href=`https://urielgre.github.io/doordash-fifty-alert/`>Back to 50-Point Alerts</a>
    </div>
  </div>
  <script>
    document.getElementById('unsubscribe-form').addEventListener('submit', async (e) => {
      e.preventDefault();
      const btn = document.getElementById('submit-btn');
      const msg = document.getElementById('message');
      const email = document.getElementById('email').value;

      btn.disabled = true;
      btn.textContent = 'Processing...';
      msg.style.display = 'none';

      try {
        const res = await fetch('/unsubscribe', {
          method: 'POST',
          headers: { 'Content-Type': 'application/json' },
          body: JSON.stringify({ email })
        });
        const data = await res.json();

        msg.style.display = 'block';
        if (data.success) {
          msg.className = 'message success';
          msg.textContent = data.message;
          document.getElementById('email').value = '';
        } else {
          msg.className = 'message error';
          msg.textContent = data.error || 'Something went wrong';
        }
      } catch (err) {
        msg.style.display = 'block';
        msg.className = 'message error';
        msg.textContent = 'Network error. Please try again.';
      }

      btn.disabled = false;
      btn.textContent = 'Unsubscribe';
    });
  </script>
</body>
</html>".

Section Handlers.

(** The revisions differ in the methods [CORS_HEADERS] lists. *)
Variable CORS_HEADERS : gmap string string.

(** [{ ...CORS_HEADERS, 'Content-Type': t }]. *)
Definition with_content_type (t : string) : gmap string string :=
  <["Content-Type" := t]> CORS_HEADERS.

Definition json_response (status : Z) (payload : list (string * jsval)) : Response :=
  new_Response (Some (JSON_stringify (object payload))) (Some status)
    (with_content_type "application/json").

(** The part of [handleSignup] inside [try]; the revisions differ in the
    [catch] clause only. *)
Definition handleSignup_try (request : Request) (env : Env) : Async Response :=
  body ← request_json request;
  property ← get body "email";
  (* body.email?.trim().toLowerCase() *)
  email ← match property with
          | None | Some JNull => Return None
          | Some v => trimmed ← call_trim v; Return (Some (toLowerCase trimmed))
          end;
  (* !email || !email.includes('@') *)
  match email with
  | None | Some EmptyString =>
      Return (json_response 400 [("error", Some (JStr "Invalid email address"))])
  | Some email =>
      if negb (includes email "@") then
        Return (json_response 400 [("error", Some (JStr "Invalid email address"))])
      else
        response ← await_fetch {|
          up_url := "https://api.resend.com/audiences/" +:+
                    ToString (str (RESEND_AUDIENCE_ID env)) +:+ "/contacts";
          up_method := "POST";
          up_headers :=
            {[ "Authorization" := "Bearer " +:+ ToString (str (RESEND_API_KEY env));
               "Content-Type" := "application/json" ]};
          up_body := JSON_stringify (object [
            ("email", Some (JStr email));
            ("unsubscribed", Some (JBool false)) ])
        |};
        result ← response_json response;
        if negb (ok response) then
          message ← get result "message";
          (* result.message?.includes('already exists') *)
          exists_already ← match message with
                           | None | Some JNull => Return false
                           | Some v => call_includes v "already exists"
                           end;
          if (exists_already : bool) then
            Return (json_response 200 [
              ("success", Some (JBool true));
              ("message", Some (JStr "Already subscribed!")) ])
          else
            Return (json_response 500 [("error", Some (JStr "Failed to subscribe"))])
        else
          Return (json_response 200 [
            ("success", Some (JBool true));
            ("message", Some (JStr "Successfully subscribed!")) ])
  end.

Definition handleUnsubscribe (email : jsval) (env : Env) : Async Response :=
  try_catch
    ((* !email || !email.includes('@') *)
     match email with
     | None =>
         Return (json_response 400 [("error", Some (JStr "Invalid email address"))])
     | Some v =>
         found ← (if truthy email then call_includes v "@" else Return false);
         if negb found then
           Return (json_response 400 [("error", Some (JStr "Invalid email address"))])
         else
           trimmed ← call_trim v;
           let cleanEmail := toLowerCase trimmed in
           response ← await_fetch {|
             up_url := "https://api.resend.com/audiences/" +:+
                       ToString (str (RESEND_AUDIENCE_ID env)) +:+ "/contacts/" +:+
                       encodeURIComponent cleanEmail;
             up_method := "PATCH";
             up_headers :=
               {[ "Authorization" := "Bearer " +:+ ToString (str (RESEND_API_KEY env));
                  "Content-Type" := "application/json" ]};
             up_body := JSON_stringify (object [("unsubscribed", Some (JBool true))])
           |};
           if negb (ok response) then
             result ← response_json response;
             if up_status response =? 404 then
               Return (json_response 200 [
                 ("success", Some (JBool true));
                 ("message", Some (JStr "You have been unsubscribed.")) ])
             else
               Return (json_response 500 [("error", Some (JStr "Failed to unsubscribe"))])
           else
             Return (json_response 200 [
               ("success", Some (JBool true));
               ("message", Some (JStr "You have been unsubscribed successfully.")) ])
     end)
    (fun error => Return (json_response 500 [("error", Some (JStr "Server error"))])).

(** What [handleFeedback] does once the e-mail is put together: the two
    revisions with a feedback handler differ in the e-mail only. *)
Definition send_feedback (env : Env) (mail : JSON) : Async Response :=
  response ← await_fetch {|
    up_url := "https://api.resend.com/emails";
    up_method := "POST";
    up_headers :=
      {[ "Authorization" := "Bearer " +:+ ToString (str (RESEND_API_KEY env));
         "Content-Type" := "application/json" ]};
    up_body := JSON_stringify mail
  |};
  if negb (ok response) then
    error ← response_json response;
    Return (json_response 500 [("error", Some (JStr "Failed to send feedback"))])
  else
    Return (json_response 200 [
      ("success", Some (JBool true));
      ("message", Some (JStr "Feedback sent! Thanks for your input.")) ]).

(** [handleFeedback], the e-mail apart.  [!message || message.trim().length < 3]
    rejects a falsy message and a short one; on a truthy value that is not a
    string, [message.trim] is not a function. *)
Definition handleFeedback_with
    (compose : string -> jsval -> jsval -> Async JSON)
    (request : Request) (env : Env) : Async Response :=
  try_catch
    (body ← request_json request;
     (* const { message, email, type } = body *)
     message ← get body "message";
     email ← get body "email";
     type ← get body "type";
     match message with
     | Some (JStr message) =>
         if String.eqb message "" || (String.length (trim message) <? 3)%nat then
           Return (json_response 400 [("error", Some (JStr "Please enter a message"))])
         else
           mail ← compose message email type;
           send_feedback env mail
     | Some v =>
         if truthy (Some v) then Throw TypeError
         else Return (json_response 400 [("error", Some (JStr "Please enter a message"))])
     | None =>
         Return (json_response 400 [("error", Some (JStr "Please enter a message"))])
     end)
    (fun error => Return (json_response 500 [("error", Some (JStr "Server error"))])).

End Handlers.

(** The fixed text of the HTML of the feedback e-mail, between the
    interpolated values. *)
Definition html_0 : string := dq
"
          <div style=`font-family: Arial, sans-serif; max-width: 600px; margin: 0 auto;`>
            <h2 style=`color: #FF3008;`>New ".
Definition html_1 : string := dq
" Received</h2>
            <div style=`background: #f5f5f5; padding: 20px; border-radius: 8px; margin: 20px 0;`>
              <p style=`margin: 0; font-size: 16px; line-height: 1.6;`>".
Definition html_2 : string := dq
"</p>
            </div>
            <p style=`color: #666; font-size: 14px;`><strong>From:</strong> ".
Definition html_3 : string := dq
"</p>
            <p style=`color: #999; font-size: 12px; margin-top: 16px;`>Please forward to: ".
Definition html_4 : string := dq
"</p>
            <hr style=`border: none; border-top: 1px solid #eee; margin: 20px 0;`>
            <p style=`color: #999; font-size: 12px;`>Sent from 50-Point Alerts feedback form</p>
          </div>
        ".

End Worker.

Import Worker.

(** ** The revision with signup, unsubscribe and feedback (src/unnamed/part_000) *)

Module Part000.

Definition CORS_HEADERS : gmap string string :=
  {[ "Access-Control-Allow-Origin" := "*";
     "Access-Control-Allow-Methods" := "POST, GET, OPTIONS";
     "Access-Control-Allow-Headers" := "Content-Type" ]}.

(** The object [map] of [escapeHtml]; [map[char]] is [undefined] for a
    character that is no key. *)
Definition map : list (ascii * string) :=
  [ ("&"%char, "&amp;");
    ("<"%char, "&lt;");
    (">"%char, "&gt;");
    (dquote, "&quot;");
    (squote, "&#039;") ].

Definition map_get (char : ascii) : jsval :=
  JStr <$> (snd <$> find (fun kv => Ascii.eqb (fst kv) char) map).

(** The character class of the regular expression of [escapeHtml]: the
    ampersand, the angle brackets and the two quotes. *)
Definition special (c : ascii) : bool :=
  existsb (Ascii.eqb c) ["&"%char; "<"%char; ">"%char; dquote; squote].

Definition escapeHtml (text : JSON) : Async string :=
  call_replace text special map_get.

Definition handleSignup (request : Request) (env : Env) : Async Response :=
  try_catch (handleSignup_try CORS_HEADERS request env)
    (fun error =>
       Return (json_response CORS_HEADERS 500 [("error", Some (JStr "Server error"))])).

Definition handleUnsubscribe := Worker.handleUnsubscribe CORS_HEADERS.

(** The e-mail [handleFeedback] sends to the admin. *)
Definition feedback_mail (env : Env) (message : string) (email type : jsval)
  : Async JSON :=
  let subject := "[50-Point Alerts] New " +:+
                 ToString (or_else type (Some (JStr "Feedback"))) +:+ ": " +:+
                 slice0 50 message +:+ "..." in
  escaped_type ← from_option escapeHtml (Throw TypeError)
                   (or_else type (Some (JStr "Feedback")));
  escaped_message ← escapeHtml (JStr message);
  escaped_email ← from_option escapeHtml (Throw TypeError)
                    (or_else email (Some (JStr "Anonymous")));
  let html := html_0 +:+ escaped_type +:+ html_1 +:+
              replace_newlines escaped_message +:+ html_2 +:+
              escaped_email +:+ html_3 +:+
              ToString (str (FORWARD_EMAIL env)) +:+ html_4 in
  let text := "New " +:+ ToString (or_else type (Some (JStr "Feedback"))) +:+ ":

" +:+ message +:+ "

From: " +:+ ToString email +:+ "

Please forward to: " +:+ ToString (str (FORWARD_EMAIL env)) in
  Return (object [
    ("from", Some (JStr "50-Point Alerts <onboarding@resend.dev>"));
    ("to", str (ADMIN_EMAIL env));
    ("reply_to", or_else email undefined);
    ("subject", Some (JStr subject));
    ("html", Some (JStr html));
    ("text", Some (JStr text)) ]).

Definition handleFeedback (request : Request) (env : Env) : Async Response :=
  handleFeedback_with CORS_HEADERS (feedback_mail env) request env.

Definition fetch (request : Request) (env : Env) : Async Response :=
  (* Only accept POST for other routes *)
  let other_routes :=
    if negb (String.eqb (method request) "POST") then
      Return (json_response CORS_HEADERS 405 [("error", Some (JStr "Method not allowed"))])
    else if String.eqb (pathname request) "/feedback" then
      handleFeedback request env
    else
      handleSignup request env in
  (* Handle CORS preflight *)
  if String.eqb (method request) "OPTIONS" then
    Return (new_Response None None CORS_HEADERS)
  else if String.eqb (pathname request) "/unsubscribe" then
    if String.eqb (method request) "GET" then
      let email := searchParams_email request in
      if truthy (str email) then
        handleUnsubscribe (str email) env
      else
        Return (new_Response (Some getUnsubscribePageHTML) None
                  (with_content_type CORS_HEADERS "text/html"))
    else if String.eqb (method request) "POST" then
      body ← request_json request;
      email ← get body "email";
      handleUnsubscribe email env
    else other_routes
  else other_routes.

End Part000.

(** ** The revision without feedback (src/unnamed/part_001) *)

Module Part001.

Definition CORS_HEADERS : gmap string string :=
  {[ "Access-Control-Allow-Origin" := "*";
     "Access-Control-Allow-Methods" := "POST, GET, OPTIONS";
     "Access-Control-Allow-Headers" := "Content-Type" ]}.

Definition handleSignup (request : Request) (env : Env) : Async Response :=
  try_catch (handleSignup_try CORS_HEADERS request env)
    (fun error =>
       (* Return 400 for JSON parse errors, 500 for other errors *)
       let isParseError := match error with SyntaxError => true | _ => false end in
       Return (json_response CORS_HEADERS (if isParseError then 400 else 500)
                 [("error", Some (JStr (if isParseError then "Invalid request body"
                                        else "Server error")))])).

Definition handleUnsubscribe := Worker.handleUnsubscribe CORS_HEADERS.

Definition fetch (request : Request) (env : Env) : Async Response :=
  (* Only accept POST for signup *)
  let signup :=
    if negb (String.eqb (method request) "POST") then
      Return (json_response CORS_HEADERS 405 [("error", Some (JStr "Method not allowed"))])
    else
      handleSignup request env in
  if String.eqb (method request) "OPTIONS" then
    Return (new_Response None None CORS_HEADERS)
  else if String.eqb (pathname request) "/unsubscribe" then
    if String.eqb (method request) "GET" then
      let email := searchParams_email request in
      if truthy (str email) then
        handleUnsubscribe (str email) env
      else
        Return (new_Response (Some getUnsubscribePageHTML) None
                  (with_content_type CORS_HEADERS "text/html"))
    else if String.eqb (method request) "POST" then
      (* the [try] covers the parsing of the body and the reading of
         [body.email]; the promise of [handleUnsubscribe] is returned, not
         awaited *)
      email ← try_catch
                (body ← request_json request;
                 email ← get body "email";
                 Return (inr email))
                (fun e =>
                   Return (inl (json_response CORS_HEADERS 400
                                  [("error", Some (JStr "Invalid request body"))])));
      match email with
      | inl invalid => Return invalid
      | inr email => handleUnsubscribe email env
      end
    else signup
  else signup.

End Part001.

(** ** The revision with signup and feedback only (src/worker/index.js) *)

Module Index.

Definition CORS_HEADERS : gmap string string :=
  {[ "Access-Control-Allow-Origin" := "*";
     "Access-Control-Allow-Methods" := "POST, OPTIONS";
     "Access-Control-Allow-Headers" := "Content-Type" ]}.

Definition ADMIN_EMAIL : string := "urielgsn@gmail.com".
Definition FORWARD_EMAIL : string := "GVDEV1200@gmail.com".

Definition handleSignup (request : Request) (env : Env) : Async Response :=
  try_catch (handleSignup_try CORS_HEADERS request env)
    (fun error =>
       Return (json_response CORS_HEADERS 500 [("error", Some (JStr "Server error"))])).

(** The e-mail [handleFeedback] sends to the admin: this revision
    interpolates the values as they come. *)
Definition feedback_mail (message : string) (email type : jsval) : Async JSON :=
  let subject := "[50-Point Alerts] New " +:+
                 ToString (or_else type (Some (JStr "Feedback"))) +:+ ": " +:+
                 slice0 50 message +:+ "..." in
  let html := html_0 +:+ ToString (or_else type (Some (JStr "Feedback"))) +:+
              html_1 +:+ replace_newlines message +:+ html_2 +:+
              ToString email +:+ html_3 +:+ FORWARD_EMAIL +:+ html_4 in
  let text := "New " +:+ ToString (or_else type (Some (JStr "Feedback"))) +:+ ":

" +:+ message +:+ "

From: " +:+ ToString email +:+ "

Please forward to: " +:+ FORWARD_EMAIL in
  Return (object [
    ("from", Some (JStr "50-Point Alerts <onboarding@resend.dev>"));
    ("to", Some (JStr ADMIN_EMAIL));
    ("reply_to", or_else email undefined);
    ("subject", Some (JStr subject));
    ("html", Some (JStr html));
    ("text", Some (JStr text)) ]).

Definition handleFeedback (request : Request) (env : Env) : Async Response :=
  handleFeedback_with CORS_HEADERS feedback_mail request env.

Definition fetch (request : Request) (env : Env) : Async Response :=
  (* Handle CORS preflight *)
  if String.eqb (method request) "OPTIONS" then
    Return (new_Response None None CORS_HEADERS)
  (* Only accept POST *)
  else if negb (String.eqb (method request) "POST") then
    Return (json_response CORS_HEADERS 405 [("error", Some (JStr "Method not allowed"))])
  (* Route to appropriate handler *)
  else if String.eqb (pathname request) "/feedback" then
    handleFeedback request env
  else
    handleSignup request env.

End Index.

(** ** The first revision, signup only (src/unnamed/part_001, second part) *)

Module Original.

Definition CORS_HEADERS : gmap string string :=
  {[ "Access-Control-Allow-Origin" := "*";
     "Access-Control-Allow-Methods" := "POST, OPTIONS";
     "Access-Control-Allow-Headers" := "Content-Type" ]}.

(** The signup is written in [fetch] itself. *)
Definition fetch (request : Request) (env : Env) : Async Response :=
  (* Handle CORS preflight *)
  if String.eqb (method request) "OPTIONS" then
    Return (new_Response None None CORS_HEADERS)
  (* Only accept POST *)
  else if negb (String.eqb (method request) "POST") then
    Return (json_response CORS_HEADERS 405 [("error", Some (JStr "Method not allowed"))])
  else
    try_catch (handleSignup_try CORS_HEADERS request env)
      (fun error =>
         Return (json_response CORS_HEADERS 500 [("error", Some (JStr "Server error"))])).

End Original.

(** ** The vocabulary of the statements *)

Module Spec.

(** A predicate on the runs of an [async] function: [wp m Q] says that [Q]
    holds of the calls made and of the completion, whatever the provider
    answers. *)
Fixpoint wp {A : Type} (m : Async A)
    (Q : list (UpRequest * fetched) -> completion A -> Prop) : Prop :=
  match m with
  | Return a => Q [] (Returned a)
  | Throw e => Q [] (Threw e)
  | Fetch q k => forall r, wp (k r) (fun calls c => Q ((q, r) :: calls) c)
  end.

(** The two JSON envelopes of the worker. *)
Definition success_body (message : string) : string :=
  JSON_stringify (JObj [("success", JBool true); ("message", JStr message)]).

Definition error_body (error : string) : string :=
  JSON_stringify (JObj [("error", JStr error)]).

Definition is_envelope (body : option string) : Prop :=
  (exists message, body = Some (success_body message)) \/
  (exists error, body = Some (error_body error)).

Definition allowed_status (s : Z) : Prop :=
  s = 200 \/ s = 400 \/ s = 405 \/ s = 500.

Definition allows_any_origin (r : Response) : Prop :=
  headers r !! "Access-Control-Allow-Origin" = Some "*".

(** The request is a CORS preflight. *)
Definition is_preflight (request : Request) : Prop :=
  method request = "OPTIONS".

(** The request asks for the unsubscribe page: a GET of /unsubscribe with no
    e-mail, or an empty one, in the query. *)
Definition asks_for_page (request : Request) : Prop :=
  method request = "GET" /\ pathname request = "/unsubscribe" /\
  (searchParams_email request = None \/ searchParams_email request = Some "").

(** The responses of the worker: the empty answer to a preflight, the
    unsubscribe page, and the two JSON envelopes with their statuses. *)
Inductive worker_response (cors : gmap string string) (request : Request)
  : Response -> Prop :=
  | preflight_response :
      is_preflight request ->
      worker_response cors request (new_Response None None cors)
  | page_response :
      asks_for_page request ->
      worker_response cors request
        (new_Response (Some getUnsubscribePageHTML) None
           (with_content_type cors "text/html"))
  | success_response message :
      worker_response cors request
        (json_response cors 200
           [("success", Some (JBool true)); ("message", Some (JStr message))])
  | error_response status error :
      status = 400 \/ status = 405 \/ status = 500 ->
      worker_response cors request
        (json_response cors status [("error", Some (JStr error))]).

(** Modelled after the words of the specification of [escapeHtml]: the text
    with every ampersand, angle bracket and quote replaced by its entity. *)
Fixpoint escaped_by_spec (s : string) : string :=
  match s with
  | EmptyString => EmptyString
  | String c r =>
      (if Ascii.eqb c "&" then "&amp;"
       else if Ascii.eqb c "<" then "&lt;"
       else if Ascii.eqb c ">" then "&gt;"
       else if Ascii.eqb c dquote then "&quot;"
       else if Ascii.eqb c squote then "&#039;"
       else String c "") +:+ escaped_by_spec r
  end.

(** [c] occurs in [s]. *)
Fixpoint occurs (c : ascii) (s : string) : bool :=
  match s with
  | EmptyString => false
  | String d r => Ascii.eqb c d || occurs c r
  end.

(** Every character of [s] is white space. *)
Fixpoint blank (s : string) : bool :=
  match s with
  | EmptyString => true
  | String c r => is_white_space c && blank r
  end.

(** A capital letter of Latin-1 and its small letter, 32 code units above. *)
Definition capital (c : ascii) : bool :=
  between 65 90 c || (between 192 222 c && negb (code c =? 215)%N).

Definition same_letter (c d : ascii) : bool :=
  Ascii.eqb c d ||
  (capital c && Ascii.eqb d (ascii_of_N (code c + 32))) ||
  (capital d && Ascii.eqb c (ascii_of_N (code d + 32))).

(** Two strings of the same length that differ in letter case only. *)
Fixpoint same_up_to_case (s t : string) : bool :=
  match s, t with
  | EmptyString, EmptyString => true
  | String c s', String d t' => same_letter c d && same_up_to_case s' t'
  | _, _ => false
  end.

(** Two e-mail strings that differ only in letter case or in leading and
    trailing white space. *)
Definition same_address (e1 e2 : string) : Prop :=
  exists l1 m1 r1 l2 m2 r2,
    e1 = l1 +:+ m1 +:+ r1 /\ e2 = l2 +:+ m2 +:+ r2 /\
    blank l1 = true /\ blank r1 = true /\
    blank l2 = true /\ blank r2 = true /\
    same_up_to_case m1 m2 = true.

(** The provider's answer says that the contact already exists, in the way
    [handleSignup] tests it. *)
Definition says_already_exists (r : UpResponse) : bool :=
  match up_json r with
  | Some (JObj fields) =>
      match lookup_field "message" fields with
      | Some (JStr m) => includes m "already exists"
      | Some (JArr items) =>
          existsb (fun i => match i with
                            | JStr s => String.eqb s "already exists"
                            | _ => false
                            end) items
      | _ => false
      end
  | _ => false
  end.

(** What [escapeHtml] puts in place of one character. *)
Definition entity (c : ascii) : string :=
  if Part000.special c then ToString (Part000.map_get c) else String c "".

(** The e-mail of a signup is absent, empty once trimmed and lower-cased, or
    without the character @. *)
Definition no_address (email : jsval) : bool :=
  match email with
  | None | Some JNull => true
  | Some (JStr s) =>
      String.eqb (toLowerCase (trim s)) "" || negb (includes (toLowerCase (trim s)) "@")
  | Some _ => false
  end.

(** The answer of the provider has a field [message], a string in which
    [sub] occurs. *)
Definition message_contains (r : UpResponse) (sub : string) : Prop :=
  exists fields message,
    up_json r = Some (JObj fields) /\
    lookup_field "message" fields = Some (JStr message) /\
    includes message sub = true.

(** The revisions of each handler. *)
Definition revisions_of_fetch : list (Request -> Env -> Async Response) :=
  [Part000.fetch; Part001.fetch; Index.fetch; Original.fetch].

Definition revisions_of_handleSignup : list (Request -> Env -> Async Response) :=
  [Part000.handleSignup; Part001.handleSignup; Index.handleSignup].

Definition revisions_of_handleUnsubscribe : list (jsval -> Env -> Async Response) :=
  [Part000.handleUnsubscribe; Part001.handleUnsubscribe].

(** The HTML of the feedback e-mail with the three values of the sender
    escaped: the type [t], the message [m] (its line ends turned into [<br>]
    after the escaping) and the address [e]. *)
Definition escaped_feedback_html (forward t m e : string) : string :=
  html_0 +:+ escaped_by_spec t +:+ html_1 +:+
  replace_newlines (escaped_by_spec m) +:+ html_2 +:+
  escaped_by_spec e +:+ html_3 +:+ forward +:+ html_4.

(** The two answers of the provider that the handlers treat as a success
    although the status is not ok: 404 on the unsubscribe route, 'already
    exists' on the subscribe route. *)
Definition special_case (request : Request) (r : UpResponse) : Prop :=
  (pathname request = "/unsubscribe" /\ up_status r = 404) \/
  (pathname request <> "/unsubscribe" /\ pathname request <> "/feedback" /\
   says_already_exists r = true).

Definition fails_with_500 (c : completion Response) : Prop :=
  exists response error,
    c = Returned response /\ status response = 500 /\
    body response = Some (error_body error).

(** The revisions that have an unsubscribe route, with its handler. *)
Definition revisions_with_unsubscribe
  : list ((Request -> Env -> Async Response) * (jsval -> Env -> Async Response)) :=
  [(Part000.fetch, Part000.handleUnsubscribe);
   (Part001.fetch, Part001.handleUnsubscribe)].

(** The call of a subscription of the address [email], and the call of an
    unsubscription of the address [cleanEmail]. *)
Definition signup_call (env : Env) (email : string) : UpRequest := {|
  up_url := "https://api.resend.com/audiences/" +:+
            ToString (str (RESEND_AUDIENCE_ID env)) +:+ "/contacts";
  up_method := "POST";
  up_headers :=
    {[ "Authorization" := "Bearer " +:+ ToString (str (RESEND_API_KEY env));
       "Content-Type" := "application/json" ]};
  up_body := JSON_stringify (JObj [("email", JStr email);
                                   ("unsubscribed", JBool false)])
|}.

Definition unsubscribe_call (env : Env) (cleanEmail : string) : UpRequest := {|
  up_url := "https://api.resend.com/audiences/" +:+
            ToString (str (RESEND_AUDIENCE_ID env)) +:+ "/contacts/" +:+
            encodeURIComponent cleanEmail;
  up_method := "PATCH";
  up_headers :=
    {[ "Authorization" := "Bearer " +:+ ToString (str (RESEND_API_KEY env));
       "Content-Type" := "application/json" ]};
  up_body := JSON_stringify (JObj [("unsubscribed", JBool true)])
|}.

(** An environment, requests and providers to run the handlers on. *)
Definition example_env : Env :=
  mkEnv (Some "re_key") (Some "aud_1") (Some "admin@example.com")
        (Some "forward@example.com").

Definition answering (status : Z) (body : option JSON) : UpRequest -> fetched :=
  fun _ => Answered (mkUpResponse status body).

Definition post (pathname : string) (body : JSON) : Request :=
  mkRequest "POST" pathname None (Some body).

Definition get_unsubscribe (email : string) : Request :=
  mkRequest "GET" "/unsubscribe" (Some email) None.

End Spec.

Import Spec.

(** ** The vocabulary of the further statements *)

Module Behaviour.

(** Every character of [s] satisfies [P]. *)
Fixpoint every (P : ascii -> bool) (s : string) : bool :=
  match s with
  | EmptyString => true
  | String c r => P c && every P r
  end.

(** How often [c] occurs in [s]. *)
Fixpoint count (c : ascii) (s : string) : nat :=
  match s with
  | EmptyString => 0%nat
  | String d r => ((if Ascii.eqb c d then 1 else 0) + count c r)%nat
  end.

(** A character that may stand in a path segment of a URL as it is: an
    unreserved character, or the percent sign of an escape. *)
Definition segment_char (c : ascii) : bool :=
  uri_unreserved c || Ascii.eqb c "%".

(** The address is as the provider gets it: not empty, with an @, without
    white space at either end and without capital letters. *)
Definition clean_address (e : string) : Prop :=
  e <> "" /\ includes e "@" = true /\ trim e = e /\ toLowerCase e = e.

(** The responses with a JSON body, each with its status. *)
Definition response_table : list (Z * string) :=
  [ (200, success_body "Successfully subscribed!");
    (200, success_body "Already subscribed!");
    (200, success_body "You have been unsubscribed.");
    (200, success_body "You have been unsubscribed successfully.");
    (200, success_body "Feedback sent! Thanks for your input.");
    (400, error_body "Invalid email address");
    (400, error_body "Please enter a message");
    (400, error_body "Invalid request body");
    (405, error_body "Method not allowed");
    (500, error_body "Failed to subscribe");
    (500, error_body "Failed to unsubscribe");
    (500, error_body "Failed to send feedback");
    (500, error_body "Server error") ].

Definition in_table (status : Z) (body : string) : bool :=
  existsb (fun row => (fst row =? status) && String.eqb (snd row) body)
    response_table.

(** The response is one of the five successes. *)
Definition is_success (response : Response) : Prop :=
  status response = 200 /\ exists message, body response = Some (success_body message).

(** A call of the worker: to the API of the provider, with the key of the
    environment and a JSON body. *)
Definition provider_call (env : Env) (q : UpRequest) : Prop :=
  String.prefix "https://api.resend.com/" (up_url q) = true /\
  (up_method q = "POST" \/ up_method q = "PATCH") /\
  up_headers q !! "Authorization" =
    Some ("Bearer " +:+ ToString (str (RESEND_API_KEY env))) /\
  up_headers q !! "Content-Type" = Some "application/json".

(** The answer of the provider that lets a handler report a success: an ok
    status; a 404 with a JSON body to the call of an unsubscription, the
    PATCH of a contact of the audience; or 'already exists' to the call of a
    subscription, the POST to the contacts of the audience. *)
Definition accepted (env : Env) (q : UpRequest) (r : UpResponse) : Prop :=
  ok r = true \/
  (up_method q = "PATCH" /\
   (exists address,
      up_url q = "https://api.resend.com/audiences/" +:+
                 ToString (str (RESEND_AUDIENCE_ID env)) +:+ "/contacts/" +:+
                 encodeURIComponent address) /\
   up_status r = 404 /\ is_Some (up_json r)) \/
  (up_method q = "POST" /\
   up_url q = "https://api.resend.com/audiences/" +:+
              ToString (str (RESEND_AUDIENCE_ID env)) +:+ "/contacts" /\
   ok r = false /\ says_already_exists r = true).

(** The message of a feedback is absent, falsy, or shorter than three
    characters once trimmed. *)
Definition no_message (message : jsval) : bool :=
  match message with
  | None => true
  | Some (JStr s) => String.eqb s "" || (String.length (trim s) <? 3)%nat
  | Some v => negb (truthy (Some v))
  end.

(** A value that is truthy and no string. *)
Definition truthy_not_string (v : jsval) : bool :=
  truthy v && match v with Some (JStr _) => false | _ => true end.

(** The headers go with the body: no [Content-Type] on the empty answer to a
    preflight, [text/html] on the page, [application/json] otherwise, and
    each time the three CORS headers of the revision. *)
Definition headers_for (cors : gmap string string) (body : option string)
  : gmap string string :=
  match body with
  | None => cors
  | Some b =>
      if String.eqb b getUnsubscribePageHTML
      then <["Content-Type" := "text/html"]> cors
      else <["Content-Type" := "application/json"]> cors
  end.

(** The [Content-Type] that goes with a body. *)
Definition content_type (body : option string) : option string :=
  match body with
  | None => None
  | Some b =>
      if String.eqb b getUnsubscribePageHTML then Some "text/html"
      else Some "application/json"
  end.

(** The revisions of [fetch], each with its [CORS_HEADERS]. *)
Definition revisions_with_headers
  : list ((Request -> Env -> Async Response) * gmap string string) :=
  [ (Part000.fetch, Part000.CORS_HEADERS);
    (Part001.fetch, Part001.CORS_HEADERS);
    (Index.fetch, Index.CORS_HEADERS);
    (Original.fetch, Original.CORS_HEADERS) ].

(** The revisions of [handleFeedback]. *)
Definition revisions_of_handleFeedback : list (Request -> Env -> Async Response) :=
  [Part000.handleFeedback; Index.handleFeedback].

(** What [handleUnsubscribe] and [handleFeedback] answer for each outcome of
    their call to the provider. *)
Definition unsubscribe_outcome (f : fetched) : Z * string :=
  match f with
  | Rejected => (500, error_body "Server error")
  | Answered r =>
      if ok r then (200, success_body "You have been unsubscribed successfully.")
      else match up_json r with
           | None => (500, error_body "Server error")
           | Some _ =>
               if up_status r =? 404
               then (200, success_body "You have been unsubscribed.")
               else (500, error_body "Failed to unsubscribe")
           end
  end.

Definition feedback_outcome (f : fetched) : Z * string :=
  match f with
  | Rejected => (500, error_body "Server error")
  | Answered r =>
      if ok r then (200, success_body "Feedback sent! Thanks for your input.")
      else match up_json r with
           | None => (500, error_body "Server error")
           | Some _ => (500, error_body "Failed to send feedback")
           end
  end.

(** [result.message?.includes('already exists')] on the parsed answer of the
    provider: [None] when the test throws (the answer is [null], or its
    message is neither a string nor an array). *)
Definition already_exists_test (result : JSON) : option bool :=
  match result with
  | JNull => None
  | JObj fields =>
      match lookup_field "message" fields with
      | None | Some JNull => Some false
      | Some (JStr m) => Some (includes m "already exists")
      | Some (JArr items) =>
          Some (existsb (fun i => match i with
                                  | JStr s => String.eqb s "already exists"
                                  | _ => false
                                  end) items)
      | Some _ => None
      end
  | _ => Some false
  end.

(** What [handleSignup] answers for each outcome of its call to the provider;
    [parse_error] is what the [catch] clause of the revision makes of a
    SyntaxError. *)
Definition signup_outcome (parse_error : Z * string) (f : fetched) : Z * string :=
  match f with
  | Rejected => (500, error_body "Server error")
  | Answered r =>
      match up_json r with
      | None => parse_error
      | Some result =>
          if ok r then (200, success_body "Successfully subscribed!")
          else match already_exists_test result with
               | None => (500, error_body "Server error")
               | Some true => (200, success_body "Already subscribed!")
               | Some false => (500, error_body "Failed to subscribe")
               end
      end
  end.

(** The revisions of [handleSignup], each with what it answers to a body of
    the provider that is not JSON. *)
Definition revisions_of_handleSignup_with_parse_error
  : list ((Request -> Env -> Async Response) * (Z * string)) :=
  [ (Part000.handleSignup, (500, error_body "Server error"));
    (Part001.handleSignup, (400, error_body "Invalid request body"));
    (Index.handleSignup, (500, error_body "Server error")) ].

(** What holds of every run of [fetch]: the calls made, and the response
    returned, if one is. *)
Definition fetch_contract (cors : gmap string string) (env : Env)
    (calls : list (UpRequest * fetched)) (c : completion Response) : Prop :=
  (length calls <= 1)%nat /\
  (forall q r, In (q, r) calls -> provider_call env q) /\
  (forall response, c = Returned response ->
     headers response = headers_for cors (body response) /\
     match body response with
     | None => status response = 200
     | Some b =>
         if String.eqb b getUnsubscribePageHTML then status response = 200
         else in_table (status response) b = true
     end /\
     (is_success response ->
      exists q r, calls = [(q, Answered r)] /\ accepted env q r)).

End Behaviour.

Import Behaviour.

(** ** Strings beyond Latin-1

    A JavaScript string is a sequence of UTF-16 code units, and the handlers
    above are written over the code units below 256.  To see what becomes of
    an address with a letter beyond them, the way of the address through
    [handleSignup], from the body of the request to the call to the provider,
    is written here once more over code units of any size.  [trim] is written
    out in full.  [toLowerCase] is written out for Latin-1 and for the three
    sigmas of the Greek alphabet, with the one rule of the Unicode case
    mapping that looks at the context of a letter; on a string with any other
    code unit the outcome is left open. *)

Module Utf16.

#[local] Open Scope N_scope.

Definition ustring : Type := list N.

(** A string of Latin-1 as a string of code units. *)
Fixpoint widen (s : string) : ustring :=
  match s with
  | EmptyString => []
  | String c r => code c :: widen r
  end.

(** U+03A3 GREEK CAPITAL LETTER SIGMA, U+03C2 GREEK SMALL LETTER FINAL SIGMA
    and U+03C3 GREEK SMALL LETTER SIGMA. *)
Definition Sigma : N := 931.
Definition final_sigma : N := 962.
Definition sigma : N := 963.

Definition in_range (lo hi c : N) : bool := (lo <=? c) && (c <=? hi).

(** ECMAScript WhiteSpace and LineTerminator: TAB, LF, VT, FF, CR, the space
    separators U+0020, U+00A0, U+1680, U+2000..U+200A, U+202F, U+205F and
    U+3000, LINE and PARAGRAPH SEPARATOR U+2028 and U+2029, and U+FEFF. *)
Definition is_white_space (c : N) : bool :=
  in_range 9 13 c || (c =? 32) || (c =? 160) || (c =? 5760) ||
  in_range 8192 8202 c || (c =? 8232) || (c =? 8233) || (c =? 8239) ||
  (c =? 8287) || (c =? 12288) || (c =? 65279).

Fixpoint trimStart (u : ustring) : ustring :=
  match u with
  | [] => []
  | c :: r => if is_white_space c then trimStart r else u
  end.

Fixpoint trimEnd (u : ustring) : ustring :=
  match u with
  | [] => []
  | c :: r =>
      match trimEnd r with
      | [] => if is_white_space c then [] else [c]
      | r' => c :: r'
      end
  end.

Definition trim (u : ustring) : ustring := trimEnd (trimStart u).

(** The code units [toLowerCase] is written out for. *)
Definition modelled (c : N) : bool :=
  (c <? 256) || (c =? Sigma) || (c =? final_sigma) || (c =? sigma).

(** The capital letters among them: A-Z, U+00C0..U+00DE (U+00D7 apart) and
    the capital sigma.  The small letter of each is 32 code units above. *)
Definition capital (c : N) : bool :=
  in_range 65 90 c || (in_range 192 222 c && negb (c =? 215)) || (c =? Sigma).

Definition lower_unit (c : N) : N := if capital c then c + 32 else c.

(** The Unicode properties Cased and Case_Ignorable, on the modelled code
    units.  Cased: the letters A-Z and a-z, U+00AA, U+00B5, U+00BA,
    U+00C0..U+00D6, U+00D8..U+00F6, U+00F8..U+00FF and the sigmas.
    Case_Ignorable: the apostrophe, full stop, colon, circumflex and grave
    accent of ASCII, and U+00A8, U+00AD, U+00AF, U+00B4, U+00B7, U+00B8. *)
Definition cased (c : N) : bool :=
  in_range 65 90 c || in_range 97 122 c ||
  (c =? 170) || (c =? 181) || (c =? 186) ||
  in_range 192 214 c || in_range 216 246 c || in_range 248 255 c ||
  (c =? Sigma) || (c =? final_sigma) || (c =? sigma).

Definition case_ignorable (c : N) : bool :=
  existsb (N.eqb c) [39; 46; 58; 94; 96; 168; 173; 175; 180; 183; 184].

(** What follows is any number of case-ignorable characters and then a cased
    letter. *)
Fixpoint followed_by_cased (u : ustring) : bool :=
  match u with
  | [] => false
  | c :: r => if case_ignorable c then followed_by_cased r else cased c
  end.

(** The lower-casing of [u], where [after_cased] says that what stands before
    [u] ends in a cased letter and any number of case-ignorable characters.
    A capital sigma in the condition Final_Sigma (after a cased letter, and
    not before one) becomes the final sigma; any other capital becomes its
    small letter. *)
Fixpoint lower_from (after_cased : bool) (u : ustring) : ustring :=
  match u with
  | [] => []
  | c :: r =>
      (if (c =? Sigma) && after_cased && negb (followed_by_cased r)
       then final_sigma
       else lower_unit c)
      :: lower_from (if case_ignorable c then after_cased else cased c) r
  end.

(** [String.prototype.toLowerCase]; [None] on a string with a code unit that
    is not modelled. *)
Definition toLowerCase (u : ustring) : option ustring :=
  if forallb modelled u then Some (lower_from false u) else None.

Fixpoint prefix (sub u : ustring) : bool :=
  match sub, u with
  | [], _ => true
  | a :: sub', b :: u' => (a =? b) && prefix sub' u'
  | _ :: _, [] => false
  end.

(** [u.includes(sub)]. *)
Fixpoint includes (u sub : ustring) : bool :=
  prefix sub u ||
  match u with
  | [] => false
  | _ :: r => includes r sub
  end.

(** [JSON.stringify] on a string of modelled code units: those below 256 are
    quoted as above, the sigmas stand for themselves. *)
Definition quote (u : ustring) : ustring :=
  34 :: flat_map (fun c => if c <? 256 then widen (quote_char (ascii_of_N c))
                           else [c]) u ++ [34].

(** A call to the provider whose body may hold any code unit. *)
Record Call : Type := mkCall {
  call_url : string;
  call_method : string;
  call_headers : gmap string string;
  call_body : ustring
}.

Definition widen_call (q : UpRequest) : Call :=
  mkCall (up_url q) (up_method q) (up_headers q) (widen (up_body q)).

(** How [handleSignup] starts on a request whose body holds the string
    [email]: the validation fails and the answer is the 400 without a call,
    or the provider is called. *)
Inductive started : Type :=
  | NotModelled
  | Invalid
  | Calls (q : Call).

(** [handleSignup] from [body.email?.trim().toLowerCase()] to the [fetch]. *)
Definition handleSignup_start (env : Env) (body_email : ustring) : started :=
  match toLowerCase (trim body_email) with
  | None => NotModelled
  | Some email =>
      (* !email || !email.includes('@') *)
      if match email with [] => true | _ => false end ||
         negb (includes email (widen "@"))
      then Invalid
      else Calls {|
        call_url := "https://api.resend.com/audiences/" +:+
                    ToString (str (RESEND_AUDIENCE_ID env)) +:+ "/contacts";
        call_method := "POST";
        call_headers :=
          {[ "Authorization" := "Bearer " +:+ ToString (str (RESEND_API_KEY env));
             "Content-Type" := "application/json" ]};
        call_body := widen (dq "{`email`:") ++ quote email ++
                     widen (dq ",`unsubscribed`:false}")
      |}
  end.

(** Every code unit of [u] is white space. *)
Definition blank (u : ustring) : bool := forallb is_white_space u.

(** Two code units that are the same letter: equal, or a capital and its
    small letter. *)
Definition same_letter (c d : N) : bool :=
  (c =? d) || (capital c && (d =? c + 32)) || (capital d && (c =? d + 32)).

(** Two strings of the same length that differ in letter case only. *)
Fixpoint same_up_to_case (u v : ustring) : bool :=
  match u, v with
  | [], [] => true
  | c :: u', d :: v' => same_letter c d && same_up_to_case u' v'
  | _, _ => false
  end.

(** Two e-mail strings that differ only in letter case or in leading and
    trailing white space. *)
Definition same_address (e1 e2 : ustring) : Prop :=
  exists l1 m1 r1 l2 m2 r2,
    e1 = l1 ++ m1 ++ r1 /\ e2 = l2 ++ m2 ++ r2 /\
    blank l1 = true /\ blank r1 = true /\
    blank l2 = true /\ blank r2 = true /\
    same_up_to_case m1 m2 = true.

End Utf16.

(** Walking through the tree of a handler: the definitions of the monad are
    unfolded and every test the handler makes is split in its cases, the
    outcome of each call to the provider included. *)
Ltac head_split m :=
  lazymatch m with
  | bind ?m' _ => head_split m'
  | try_catch ?m' _ => head_split m'
  | match ?x with _ => _ end => destruct x eqn:?
  | if ?x then _ else _ => destruct x eqn:?
  | get ?v _ => destruct v eqn:?
  | call_trim ?v => destruct v eqn:?
  | call_includes ?v _ => destruct v eqn:?
  | call_replace ?v _ _ => destruct v eqn:?
  | from_option _ _ ?v => destruct v eqn:?
  | response_json ?r => unfold response_json
  | request_json ?r => unfold request_json
  | Part000.escapeHtml _ => unfold Part000.escapeHtml
  end.

Ltac unfold_async :=
  unfold mbind, mret, Async_bind, Async_ret;
  cbn [wp bind try_catch mbind mret Async_bind Async_ret await_fetch
       response_json request_json get call_trim call_includes call_replace
       from_option fmap option_fmap option_map str or_else].

Ltac walk :=
  repeat (unfold_async;
          lazymatch goal with
          | |- wp ?m _ => head_split m
          | |- forall r : fetched, _ => intros [|?]
          end);
  unfold_async.

(** A hypothesis that a call is among the calls of a leaf is turned into the
    equations it stands for. *)
Ltac split_calls :=
  repeat match goal with
         | H : In _ [] |- _ => destruct H
         | H : False |- _ => destruct H
         | H : In _ (_ :: _) |- _ => cbn [In] in H; destruct H as [H | H]
         end;
  simplify_eq.

(** The tests on statuses and flags recorded along a path become
    propositions. *)
Ltac numbers :=
  repeat match goal with
         | H : (_ =? _) = true |- _ => apply Z.eqb_eq in H
         | H : (_ =? _) = false |- _ => apply Z.eqb_neq in H
         | H : negb _ = true |- _ => apply negb_true_iff in H
         | H : negb _ = false |- _ => apply negb_false_iff in H
         | H : is_Some _ |- _ => destruct H as [? H]
         end.

(** The comparisons of two string literals are evaluated. *)
Ltac eval_tests :=
  repeat match goal with
         | |- context [String.eqb ?a ?b] =>
             let v := eval vm_compute in (String.eqb a b) in
             change (String.eqb a b) with v
         end;
  cbn [negb].

(** The tests made on the answer of the provider, put into [H]. *)
Ltac use_answer H :=
  repeat match goal with
         | E : up_json ?r = _ |- _ => rewrite E in H
         | E : lookup_field ?k ?f = _ |- _ => rewrite E in H
         end;
  cbv beta iota in H.

(** A leaf of [fetch], for the statement that a response is one of the
    responses of the worker. *)
Ltac response_leaf :=
  let resp := fresh "resp" in
  let E := fresh "E" in
  intros resp E; try discriminate E; injection E as <-;
  first
    [ apply success_response
    | apply error_response; tauto
    | apply preflight_response;
      unfold is_preflight; now apply String.eqb_eq
    | apply page_response; unfold asks_for_page;
      repeat match goal with
             | H : String.eqb _ _ = true |- _ => apply String.eqb_eq in H
             end;
      repeat split; try assumption;
      match goal with
      | H : truthy (str ?e) = false |- _ =>
          destruct e as [[|]|]; cbn in H; try discriminate H; auto
      end ].

(** A leaf of a handler, for the statement that a failed call fails the
    request: the call was answered ok, or the answer is one of the special
    cases, or the response is a 500. *)
Ltac failure_leaf :=
  let q := fresh "q" in
  let r := fresh "r" in
  let Hin := fresh "Hin" in
  let Hok := fresh "Hok" in
  let Hnot := fresh "Hnot" in
  intros q r Hin Hok Hnot; split_calls; numbers; try congruence;
  first
    [ split; [reflexivity | eexists _, _; repeat split; reflexivity]
    | exfalso; apply Hnot; unfold special_case;
      repeat match goal with
             | H : String.eqb _ _ = true |- _ => apply String.eqb_eq in H
             | H : String.eqb _ _ = false |- _ => apply String.eqb_neq in H
             end;
      first
        [ left; split; [assumption | lia]
        | right; split; [assumption|]; split; [assumption|];
          unfold says_already_exists;
          repeat match goal with
                 | E : up_json _ = _ |- _ => rewrite E
                 | E : lookup_field _ _ = _ |- _ => rewrite E
                 end;
          assumption ] ].

(** A leaf of [fetch], for the contract of its runs: the call of the leaf,
    if there is one, goes to the provider; the headers and the body of the
    response go together and are in the table; a success has its call. *)
Ltac contract_calls :=
  let q := fresh "q" in
  let r := fresh "r" in
  let Hin := fresh "Hin" in
  intros q r Hin; split_calls;
  try (unfold provider_call; cbn [up_url up_method up_headers];
       split; [reflexivity|]; split; [auto|]; split;
       [apply lookup_insert_eq
       |rewrite lookup_insert_ne by discriminate; apply lookup_singleton_eq]).

Ltac contract_success :=
  let Hst := fresh "Hst" in
  let m := fresh "m" in
  let Hb := fresh "Hb" in
  intros [Hst [m Hb]];
  cbn [status body json_response new_Response default from_option id] in Hst, Hb;
  first
    [ discriminate Hst
    | discriminate Hb
    | exfalso; apply (f_equal (fun b => slice0 1 <$> b)) in Hb;
      vm_compute in Hb; discriminate Hb
    | eexists _, _; split; [reflexivity|]; numbers; unfold accepted;
      first
        [ left; assumption
        | right; left; split; [reflexivity|];
          split; [eexists; reflexivity|]; split; [assumption|];
          eexists; eassumption
        | right; right; split; [reflexivity|]; split; [reflexivity|];
          split; [assumption|];
          unfold says_already_exists;
          repeat match goal with
                 | E : up_json _ = _ |- _ => rewrite E
                 | E : lookup_field _ _ = _ |- _ => rewrite E
                 end;
          assumption
        | exfalso; match goal with H : _ = _ |- _ => discriminate H end ] ].

Ltac contract_response :=
  let response := fresh "response" in
  let E := fresh "E" in
  intros response E;
  first
    [ discriminate E
    | injection E as <-;
      split;
        [unfold headers_for; cbn [body json_response new_Response]; eval_tests;
         reflexivity|];
      split;
        [cbn [body status json_response new_Response default from_option id];
         eval_tests; first [reflexivity | vm_compute; reflexivity]
        |contract_success] ].

Ltac contract_leaf :=
  unfold fetch_contract;
  split; [cbn [length]; first [exact (le_n 1) | exact (le_S 0 0 (le_n 0))]|];
  split; [contract_calls | contract_response].

(** A leaf of a handler, for the statement that the outcome of the call
    decides the response. *)
Ltac outcome_leaf :=
  let q := fresh "q" in
  let f := fresh "f" in
  let E := fresh "E" in
  intros q f E;
  first
    [ discriminate E
    | injection E as <- <-;
      eexists; split; [reflexivity|];
      cbn [unsubscribe_outcome feedback_outcome];
      repeat match goal with
             | H : negb _ = true |- _ => apply negb_true_iff in H
             | H : negb _ = false |- _ => apply negb_false_iff in H
             end;
      repeat match goal with
             | H : ok ?r = _ |- context [ok ?r] => rewrite H
             | H : up_json ?r = _ |- context [up_json ?r] => rewrite H
             | H : (up_status ?r =? 404) = _ |- context [up_status ?r =? 404] =>
                 rewrite H
             end;
      split; reflexivity ].

(** The same for [handleSignup], whose test of the message is put back
    together from the tests recorded along the path. *)
Ltac signup_outcome_leaf :=
  let q := fresh "q" in
  let f := fresh "f" in
  let E := fresh "E" in
  intros q f E;
  first
    [ discriminate E
    | injection E as <- <-;
      eexists; split; [reflexivity|];
      cbn [signup_outcome];
      repeat match goal with
             | H : negb _ = true |- _ => apply negb_true_iff in H
             | H : negb _ = false |- _ => apply negb_false_iff in H
             end;
      repeat (cbn [already_exists_test];
              match goal with
              | H : ok ?r = _ |- context [ok ?r] => rewrite H
              | H : up_json ?r = _ |- context [up_json ?r] => rewrite H
              | H : lookup_field ?k ?l = _ |- context [lookup_field ?k ?l] =>
                  rewrite H
              | H : includes ?a ?b = _ |- context [includes ?a ?b] => rewrite H
              | H : existsb ?g ?l = _ |- context [existsb ?g ?l] => rewrite H
              end);
      cbn [already_exists_test];
      first [ split; reflexivity
            | exfalso; match goal with H : _ = _ |- _ => discriminate H end ] ].

(** * The model at work *)

Section Examples.

Example trim_example : trim "	 Ann@Example.com 
" = "Ann@Example.com".
Proof. reflexivity. Qed.

Example toLowerCase_example : toLowerCase "Ann@Example.COM" = "ann@example.com".
Proof. reflexivity. Qed.

Example includes_example :
  includes "ann@example.com" "@" = true /\ includes "ann.example.com" "@" = false /\
  includes "Contact already exists" "already exists" = true.
Proof. repeat split. Qed.

Example encodeURIComponent_example :
  encodeURIComponent "ann+x@example.com" = "ann%2Bx%40example.com".
Proof. reflexivity. Qed.

Example JSON_stringify_example :
  JSON_stringify (object [("email", Some (JStr "a@b.c")); ("note", undefined);
                          ("unsubscribed", Some (JBool false))]) =
  dq "{`email`:`a@b.c`,`unsubscribed`:false}".
Proof. reflexivity. Qed.

Example escapeHtml_example :
  Part000.escapeHtml (JStr "<a href='x'>T&C</a>") =
  Return "&lt;a href=&#039;x&#039;&gt;T&amp;C&lt;/a&gt;".
Proof. reflexivity. Qed.

Example signup_example :
  exists headers,
    run (answering 200 (Some (JObj [("id", JStr "c_1")])))
        (Part000.fetch (post "/" (JObj [("email", JStr " Ann@Example.com ")])) example_env) =
    ([({| up_url := "https://api.resend.com/audiences/aud_1/contacts";
          up_method := "POST";
          up_headers := headers;
          up_body := dq "{`email`:`ann@example.com`,`unsubscribed`:false}" |},
       Answered (mkUpResponse 200 (Some (JObj [("id", JStr "c_1")]))))],
     Returned (json_response Part000.CORS_HEADERS 200
                 [("success", Some (JBool true));
                  ("message", Some (JStr "Successfully subscribed!"))])) /\
    headers !! "Authorization" = Some "Bearer re_key".
Proof. eexists. split; vm_compute; reflexivity. Qed.

End Examples.

(** * Facts about strings *)

Section Characters.

(** A statement about every character is checked on the 256 of them. *)
Lemma forall_ascii (P : ascii -> bool) :
  forallb P (List.map ascii_of_nat (seq 0 256)) = true -> forall c, P c = true.
Proof.
  intros H c.
  rewrite forallb_forall in H. apply H.
  rewrite <- (ascii_nat_embedding c).
  apply in_map, in_seq. pose proof (nat_ascii_bounded c). lia.
Qed.

Lemma lower_char_white_space c : is_white_space (lower_char c) = is_white_space c.
Proof.
  apply Bool.eqb_prop.
  revert c. apply (forall_ascii (fun c => Bool.eqb _ _)). vm_compute. reflexivity.
Qed.

Lemma lower_char_idempotent c : lower_char (lower_char c) = lower_char c.
Proof.
  apply Ascii.eqb_eq.
  revert c. apply (forall_ascii (fun c => Ascii.eqb _ _)). vm_compute. reflexivity.
Qed.





End Characters.

Section Strings.

#[local] Arguments String.append !_ _ / : simpl nomatch.


Lemma append_assoc s t u : (s +:+ t) +:+ u = s +:+ t +:+ u.
Proof. induction s as [|c s IH]; simpl; [reflexivity | now rewrite IH]. Qed.

Lemma toLowerCase_app s t : toLowerCase (s +:+ t) = toLowerCase s +:+ toLowerCase t.
Proof. induction s as [|c s IH]; simpl; [reflexivity | now rewrite IH]. Qed.

Lemma blank_toLowerCase s : blank (toLowerCase s) = blank s.
Proof.
  induction s as [|c s IH]; simpl; [reflexivity|].
  now rewrite lower_char_white_space, IH.
Qed.


(** Trimming and lower-casing commute: a letter and its other case are white
    space together. *)
Lemma trimStart_toLowerCase s : trimStart (toLowerCase s) = toLowerCase (trimStart s).
Proof.
  induction s as [|c s IH]; simpl; [reflexivity|].
  rewrite lower_char_white_space. now destruct (is_white_space c).
Qed.

Lemma trimEnd_toLowerCase s : trimEnd (toLowerCase s) = toLowerCase (trimEnd s).
Proof.
  induction s as [|c s IH]; simpl; [reflexivity|].
  rewrite IH, lower_char_white_space.
  destruct (trimEnd s); simpl; [now destruct (is_white_space c) | reflexivity].
Qed.

Lemma trim_toLowerCase s : trim (toLowerCase s) = toLowerCase (trim s).
Proof. unfold trim. now rewrite trimStart_toLowerCase, trimEnd_toLowerCase. Qed.







Lemma includes_char s c : includes s (String c "") = occurs c s.
Proof.
  induction s as [|d s IH]; simpl; [reflexivity|].
  rewrite IH. f_equal.
  rewrite (Ascii.eqb_sym c d).
  destruct (Ascii.eqb d c) eqn:E.
  - apply Ascii.eqb_eq in E. subst. destruct (ascii_dec c c); [|congruence].
    now destruct s.
  - apply Ascii.eqb_neq in E. destruct (ascii_dec c d); [congruence | reflexivity].
Qed.

Lemma occurs_app c s t : occurs c (s +:+ t) = occurs c s || occurs c t.
Proof.
  induction s as [|d s IH]; simpl; [reflexivity|].
  now rewrite IH, orb_assoc.
Qed.




End Strings.

(** * Facts about [escapeHtml] *)

Section EscapeHtml.

#[local] Arguments String.append !_ _ / : simpl nomatch.

Lemma entity_by_spec c :
  entity c =
  if Ascii.eqb c "&" then "&amp;"
  else if Ascii.eqb c "<" then "&lt;"
  else if Ascii.eqb c ">" then "&gt;"
  else if Ascii.eqb c dquote then "&quot;"
  else if Ascii.eqb c squote then "&#039;"
  else String c "".
Proof.
  apply String.eqb_eq. revert c.
  apply (forall_ascii (fun c => String.eqb _ _)). vm_compute. reflexivity.
Qed.

Lemma replace_class_entity s :
  replace_class Part000.special (fun c => ToString (Part000.map_get c)) s =
  escaped_by_spec s.
Proof.
  induction s as [|c s IH]; cbn [replace_class escaped_by_spec]; [reflexivity|].
  rewrite IH, <- entity_by_spec. unfold entity.
  destruct (Part000.special c); reflexivity.
Qed.

Lemma escapeHtml_string s : Part000.escapeHtml (JStr s) = Return (escaped_by_spec s).
Proof.
  unfold Part000.escapeHtml, call_replace. now rewrite replace_class_entity.
Qed.

(** No entity holds an angle bracket or a quote. *)
Lemma entity_clean c :
  occurs "<" (entity c) = false /\ occurs ">" (entity c) = false /\
  occurs dquote (entity c) = false /\ occurs squote (entity c) = false.
Proof.
  enough (H : (negb (occurs "<" (entity c)) && negb (occurs ">" (entity c)) &&
               negb (occurs dquote (entity c)) && negb (occurs squote (entity c)))
              = true).
  { rewrite !andb_true_iff, !negb_true_iff in H. tauto. }
  revert c. apply forall_ascii. vm_compute. reflexivity.
Qed.

Lemma escaped_by_spec_clean s :
  occurs "<" (escaped_by_spec s) = false /\ occurs ">" (escaped_by_spec s) = false /\
  occurs dquote (escaped_by_spec s) = false /\
  occurs squote (escaped_by_spec s) = false.
Proof.
  induction s as [|c s (IH1 & IH2 & IH3 & IH4)]; cbn [escaped_by_spec].
  - now vm_compute.
  - rewrite <- entity_by_spec, !occurs_app, IH1, IH2, IH3, IH4, !orb_false_r.
    apply entity_clean.
Qed.

End EscapeHtml.

(** * Reasoning about runs *)

Section Runs.

Context {A : Type}.
Implicit Types (m : Async A) (Q : list (UpRequest * fetched) -> completion A -> Prop).

Lemma wp_run m Q provider :
  wp m Q -> Q (run provider m).1 (run provider m).2.
Proof.
  revert Q. induction m as [a | e | q k IH]; intros Q H; cbn in *; try assumption.
  specialize (IH _ _ (H (provider q))).
  destruct (run provider (k (provider q))) as [calls c]. exact IH.
Qed.

Lemma wp_run_eq m Q provider calls c :
  wp m Q -> run provider m = (calls, c) -> Q calls c.
Proof. intros H E. pose proof (wp_run m Q provider H) as H'. now rewrite E in H'. Qed.

Lemma wp_mono m Q Q' :
  (forall calls c, Q calls c -> Q' calls c) -> wp m Q -> wp m Q'.
Proof.
  revert Q Q'. induction m as [a | e | q k IH]; intros Q Q' HQ H; cbn in *; auto.
  intros r. eapply IH; [|apply H]. cbn. auto.
Qed.

End Runs.


(** * The unsubscribe handler and a contact that is not found *)

Section Unsubscribe404.

(** [!email || !email.includes('@')] on a string comes down to the search
    for the @: the empty string has none. *)
Lemma unsubscribe_test e :
  (if truthy (Some (JStr e)) then call_includes (JStr e) "@" else Return false) =
  Return (includes e "@").
Proof. now destruct e. Qed.

(** A string with an @ passes the validation: the provider is called, with
    the method PATCH. *)
Lemma handleUnsubscribe_valid_email_calls cors s env provider :
  includes s "@" = true ->
  exists q,
    (run provider (Worker.handleUnsubscribe cors (Some (JStr s)) env)).1 =
      [(q, provider q)] /\
    up_method q = "PATCH".
Proof.
  intros Hat. unfold Worker.handleUnsubscribe.
  rewrite unsubscribe_test. unfold mbind, Async_bind. cbn [bind call_trim].
  rewrite Hat. cbn [negb bind await_fetch try_catch run].
  match goal with
  | |- context [provider ?q0] =>
      exists q0; split; [|reflexivity]; destruct (provider q0) as [|r]
  end.
  - reflexivity.
  - cbn [bind try_catch]. destruct (negb (ok r)).
    + unfold response_json. destruct (up_json r); cbn [bind try_catch];
        [destruct (up_status r =? 404)|]; reflexivity.
    + reflexivity.
Qed.

(** In every run of [handleUnsubscribe] the provider is called at most once,
    and a run in which it answered 404 with a body that parses as JSON ends
    with the 200 response of an unsubscription. *)
Lemma handleUnsubscribe_404 cors email env :
  wp (Worker.handleUnsubscribe cors email env) (fun calls c =>
    forall q r, In (q, Answered r) calls ->
      up_status r = 404 -> is_Some (up_json r) ->
      calls = [(q, Answered r)] /\
      c = Returned (json_response cors 200
            [("success", Some (JBool true));
             ("message", Some (JStr "You have been unsubscribed."))])).
Proof.
  unfold Worker.handleUnsubscribe. walk.
  all: intros q' r' Hin H404 Hjson; split_calls; numbers.
  all: try congruence; try (unfold ok in *; lia).
  all: split; reflexivity.
Qed.

(** With a body that parses as JSON the handler does what its comment says
    ('If contact not found, that's fine'): for every unsubscribe request,
    whichever revision handles it, if the PATCH call to the provider is
    answered with status 404 and a JSON body, [handleUnsubscribe] makes no
    other call and returns status 200 with the body
    [{success: true, message: 'You have been unsubscribed.'}]. *)
Theorem unsubscribe_not_found_is_success
    handleUnsubscribe email env provider calls c q r :
  In handleUnsubscribe revisions_of_handleUnsubscribe ->
  run provider (handleUnsubscribe email env) = (calls, c) ->
  In (q, Answered r) calls ->
  up_status r = 404 ->
  is_Some (up_json r) ->
  calls = [(q, Answered r)] /\
  exists response,
    c = Returned response /\ status response = 200 /\
    body response = Some (success_body "You have been unsubscribed.").
Proof.
  intros Hrev Hrun Hin H404 Hjson.
  assert (exists cors, handleUnsubscribe = Worker.handleUnsubscribe cors) as [cors ->].
  { destruct Hrev as [<- | [<- | []]]; eexists; reflexivity. }
  destruct (wp_run_eq _ _ _ _ _ (handleUnsubscribe_404 cors email env) Hrun
              q r Hin H404 Hjson) as [-> ->].
  split; [reflexivity|]. eexists. repeat split; reflexivity.
Qed.

(** A run of the theorem: the address of a contact the provider does not
    know. *)
Lemma unsubscribe_not_found_is_success_witness :
  let provider := answering 404 (Some (JObj [("name", JStr "not_found")])) in
  let run1 := run provider (Part000.handleUnsubscribe (Some (JStr " Ann@Example.com ")) example_env) in
  exists q r,
    In (q, Answered r) run1.1 /\ up_status r = 404 /\ is_Some (up_json r) /\
    run1.1 = [(q, Answered r)] /\
    exists response,
      run1.2 = Returned response /\ status response = 200 /\
      body response = Some (success_body "You have been unsubscribed.").
Proof.
  intros provider run1.
  exists (fst (hd (mkUpRequest "" "" ∅ "", Rejected) run1.1)),
         (mkUpResponse 404 (Some (JObj [("name", JStr "not_found")]))).
  assert (Hin : In (fst (hd (mkUpRequest "" "" ∅ "", Rejected) run1.1),
                    Answered (mkUpResponse 404 (Some (JObj [("name", JStr "not_found")]))))
                   run1.1).
  { vm_compute. left. reflexivity. }
  split; [exact Hin|]. split; [reflexivity|]. split; [eexists; reflexivity|].
  apply (unsubscribe_not_found_is_success Part000.handleUnsubscribe
           (Some (JStr " Ann@Example.com ")) example_env provider run1.1 run1.2).
  - left. reflexivity.
  - apply surjective_pairing.
  - exact Hin.
  - reflexivity.
  - eexists. reflexivity.
Defined.

(** C1 at a contact the provider does not know, when the 404 comes with a
    body that is not JSON: in both revisions [handleUnsubscribe] makes the
    PATCH, [response.json()] rejects before the status is looked at, and the
    answer is 500 'Server error', not the 200 of an unsubscription. *)
Lemma unsubscribe_not_found_answers_500 :
  let email := Some (JStr "ann@example.com") in
  let answer := mkUpResponse 404 None in
  let provider := fun _ : UpRequest => Answered answer in
  let answers_500 handleUnsubscribe :=
    exists response,
      run provider (handleUnsubscribe email example_env) =
        ([(unsubscribe_call example_env "ann@example.com", Answered answer)],
         Returned response) /\
      status response = 500 /\
      body response = Some (error_body "Server error") in
  ok answer = false /\ up_status answer = 404 /\
  answers_500 Part000.handleUnsubscribe /\
  answers_500 Part001.handleUnsubscribe.
Proof.
  intros email answer provider answers_500.
  split; [reflexivity|]. split; [reflexivity|].
  split; (eexists; split; [vm_compute; reflexivity | split; reflexivity]).
Qed.

End Unsubscribe404.

(** * The signup handler *)

Section Signup.

(** The revisions of [handleSignup] are one [try] block under [catch]
    clauses that return a response. *)
Lemma revisions_of_handleSignup_shape handleSignup :
  In handleSignup revisions_of_handleSignup ->
  exists cors on_error,
    handleSignup = fun request env =>
      try_catch (handleSignup_try cors request env) (fun e => Return (on_error e)).
Proof.
  intros [<- | [<- | [<- | []]]]; eexists _, _; reflexivity.
Qed.

Variable cors : gmap string string.
Variable on_error : exn -> Response.

Let handler (request : Request) (env : Env) : Async Response :=
  try_catch (handleSignup_try cors request env) (fun e => Return (on_error e)).

Lemma handler_no_address request env provider body email :
  json request = Some body ->
  get body "email" = Return email ->
  no_address email = true ->
  run provider (handler request env) =
  ([], Returned (json_response cors 400 [("error", Some (JStr "Invalid email address"))])).
Proof.
  intros Hjson Hget Hno.
  unfold handler, handleSignup_try, request_json. rewrite Hjson.
  unfold mbind, Async_bind. cbn [bind]. rewrite Hget. cbn [bind].
  destruct email as [[| | |s| |]|]; try discriminate; try reflexivity.
  cbn [call_trim bind mret Async_ret]. cbn [no_address] in Hno.
  destruct (toLowerCase (trim s)) as [|c e] eqn:E; [reflexivity|].
  cbn [String.eqb orb] in Hno. rewrite Hno. reflexivity.
Qed.

Lemma handler_already_exists request env :
  wp (handler request env) (fun calls c =>
    forall q r, In (q, Answered r) calls ->
      ok r = false -> says_already_exists r = true ->
      calls = [(q, Answered r)] /\
      c = Returned (json_response cors 200
            [("success", Some (JBool true));
             ("message", Some (JStr "Already subscribed!"))])).
Proof.
  unfold handler, handleSignup_try. walk.
  all: intros q' r' Hin Hok Hsays; split_calls; numbers.
  all: try congruence.
  all: unfold says_already_exists in Hsays; use_answer Hsays; try congruence.
  all: split; reflexivity.
Qed.

End Signup.

Section ValidAddress.

Variable cors : gmap string string.

(** Each call of a run is recorded with what the provider answered to it. *)
Lemma run_calls_provider {A : Type} (m : Async A) provider q f :
  In (q, f) (run provider m).1 -> f = provider q.
Proof.
  induction m as [a | e | q' k IH]; cbn [run]; try (intros []).
  specialize (IH (provider q')).
  destruct (run provider (k (provider q'))) as [calls c].
  cbn [fst In] in *. intros [[= <- <-] | Hin]; [reflexivity | auto].
Qed.

Lemma signup_calls_once on_error request env :
  wp (try_catch (handleSignup_try cors request env) (fun e => Return (on_error e)))
    (fun calls c =>
       forall parsed s,
         json request = Some parsed ->
         get parsed "email" = Return (Some (JStr s)) ->
         includes (toLowerCase (trim s)) "@" = true ->
         exists f, calls = [(signup_call env (toLowerCase (trim s)), f)]).
Proof.
  unfold handleSignup_try. walk.
  all: intros sent address Hjson Hget Hat; simplify_eq.
  all: cbn [get] in Hget; simplify_eq.
  all: try match goal with
           | H : toLowerCase (trim _) = _ |- _ => rewrite H in *
           end.
  all: numbers; try congruence; try discriminate.
  all: eexists; reflexivity.
Qed.

(** A signup with a string that holds an @ passes the validation: the run
    makes one call, the call of a subscription of the trimmed and lower-cased
    address. *)
Lemma signup_valid_address on_error request env provider parsed s :
  json request = Some parsed ->
  get parsed "email" = Return (Some (JStr s)) ->
  includes (toLowerCase (trim s)) "@" = true ->
  (run provider
     (try_catch (handleSignup_try cors request env)
        (fun e => Return (on_error e)))).1 =
  [(signup_call env (toLowerCase (trim s)),
    provider (signup_call env (toLowerCase (trim s))))].
Proof.
  intros Hjson Hget Hat.
  pose proof (wp_run _ _ provider (signup_calls_once on_error request env)
                parsed s Hjson Hget Hat) as [f Hcalls].
  rewrite Hcalls. do 2 f_equal.
  eapply run_calls_provider. rewrite Hcalls. now left.
Qed.






End ValidAddress.

(** C2: for every subscribe request whose body e-mail is absent, or is a
    string that once trimmed and lower-cased is empty or has no @,
    [handleSignup] (in each revision) returns status 400 with the body
    [{error: 'Invalid email address'}] and calls the provider not once. *)
Theorem signup_rejects_invalid_email
    handleSignup request env provider parsed email :
  In handleSignup revisions_of_handleSignup ->
  json request = Some parsed ->
  get parsed "email" = Return email ->
  no_address email = true ->
  exists response,
    run provider (handleSignup request env) = ([], Returned response) /\
    status response = 400 /\
    body response = Some (error_body "Invalid email address").
Proof.
  intros Hrev Hjson Hget Hno.
  destruct (revisions_of_handleSignup_shape _ Hrev) as (cors & on_error & ->).
  eexists. split.
  - eapply handler_no_address; eassumption.
  - split; reflexivity.
Qed.

Lemma signup_rejects_invalid_email_witness :
  let request := post "/" (JObj [("email", JStr "  Ann.Example.COM ")]) in
  let provider := answering 200 (Some (JObj [])) in
  exists response,
    run provider (Index.handleSignup request example_env) = ([], Returned response) /\
    status response = 400 /\
    body response = Some (error_body "Invalid email address").
Proof.
  intros request provider.
  apply (signup_rejects_invalid_email Index.handleSignup request example_env provider
           (JObj [("email", JStr "  Ann.Example.COM ")])
           (Some (JStr "  Ann.Example.COM "))).
  - right. right. left. reflexivity.
  - reflexivity.
  - reflexivity.
  - vm_compute. reflexivity.
Defined.

(** C5: for every subscribe request with a valid e-mail, in each revision,
    if the provider answers the call of the subscription with a status that
    is not ok and a JSON body whose [message] is a string containing 'already
    exists', the run of [handleSignup] is that one call, and the response
    has status 200 and the body
    [{success: true, message: 'Already subscribed!'}]. *)
Theorem signup_already_exists_is_success
    handleSignup request env provider parsed s r :
  In handleSignup revisions_of_handleSignup ->
  json request = Some parsed ->
  get parsed "email" = Return (Some (JStr s)) ->
  includes (toLowerCase (trim s)) "@" = true ->
  provider (signup_call env (toLowerCase (trim s))) = Answered r ->
  ok r = false ->
  message_contains r "already exists" ->
  exists response,
    run provider (handleSignup request env) =
      ([(signup_call env (toLowerCase (trim s)), Answered r)], Returned response) /\
    status response = 200 /\
    body response = Some (success_body "Already subscribed!").
Proof.
  intros Hrev Hjson Hget Hat Hanswer Hok (fields & message & Hbody & Hmessage & Hsub).
  destruct (revisions_of_handleSignup_shape _ Hrev) as (cors & on_error & ->).
  pose proof (signup_valid_address cors on_error request env provider parsed s
                Hjson Hget Hat) as Hcalls.
  rewrite Hanswer in Hcalls.
  destruct (wp_run _ _ provider (handler_already_exists cors on_error request env)
              (signup_call env (toLowerCase (trim s))) r) as [_ Hc].
  - rewrite Hcalls. now left.
  - exact Hok.
  - unfold says_already_exists. now rewrite Hbody, Hmessage.
  - exists (json_response cors 200
              [("success", Some (JBool true));
               ("message", Some (JStr "Already subscribed!"))]).
    split; [|split; reflexivity].
    rewrite (surjective_pairing (run provider _)). now rewrite Hcalls, Hc.
Qed.

Lemma signup_already_exists_is_success_witness :
  let request := post "/" (JObj [("email", JStr " Ann@Example.com ")]) in
  let answer := mkUpResponse 409 (Some (JObj [("message", JStr "Contact already exists")])) in
  let provider := fun _ : UpRequest => Answered answer in
  let answers_200 handleSignup :=
    exists response,
      run provider (handleSignup request example_env) =
        ([(signup_call example_env "ann@example.com", Answered answer)],
         Returned response) /\
      status response = 200 /\
      body response = Some (success_body "Already subscribed!") in
  answers_200 Part000.handleSignup /\
  answers_200 Part001.handleSignup /\
  answers_200 Index.handleSignup.
Proof.
  intros request answer provider answers_200.
  assert (Hat : includes (toLowerCase (trim " Ann@Example.com ")) "@" = true)
    by (vm_compute; reflexivity).
  assert (Hmessage : message_contains answer "already exists")
    by (eexists _, _; repeat split; reflexivity).
  split; [|split].
  - apply (signup_already_exists_is_success Part000.handleSignup request example_env
             provider (JObj [("email", JStr " Ann@Example.com ")])
             " Ann@Example.com " answer);
      [left; reflexivity | reflexivity | reflexivity | exact Hat | reflexivity
      | reflexivity | exact Hmessage].
  - apply (signup_already_exists_is_success Part001.handleSignup request example_env
             provider (JObj [("email", JStr " Ann@Example.com ")])
             " Ann@Example.com " answer);
      [right; left; reflexivity | reflexivity | reflexivity | exact Hat | reflexivity
      | reflexivity | exact Hmessage].
  - apply (signup_already_exists_is_success Index.handleSignup request example_env
             provider (JObj [("email", JStr " Ann@Example.com ")])
             " Ann@Example.com " answer);
      [right; right; left; reflexivity | reflexivity | reflexivity | exact Hat
      | reflexivity | reflexivity | exact Hmessage].
Defined.

(** * [escapeHtml] *)

(** C9: for every string [s], [escapeHtml(s)] is [s] with every ampersand,
    angle bracket, double quote and single quote replaced by its entity, and
    so holds no angle bracket and no quote. *)
Theorem escapeHtml_replaces_special_characters s :
  exists out,
    Part000.escapeHtml (JStr s) = Return out /\
    out = escaped_by_spec s /\
    occurs "<" out = false /\ occurs ">" out = false /\
    occurs dquote out = false /\ occurs squote out = false.
Proof.
  exists (escaped_by_spec s). split; [apply escapeHtml_string|].
  split; [reflexivity|]. apply escaped_by_spec_clean.
Qed.

(** * Addresses that differ in case or padding *)

Section SameAddress.

Variable cors : gmap string string.



End SameAddress.



(** * Addresses beyond Latin-1 *)

Section Wide.

#[local] Arguments String.append !_ _ / : simpl nomatch.

Lemma widen_app s t : Utf16.widen (s +:+ t) = Utf16.widen s ++ Utf16.widen t.
Proof. induction s as [|c s IH]; simpl; [reflexivity | now rewrite IH]. Qed.

Lemma widen_empty s : Utf16.widen s = [] -> s = "".
Proof. now destruct s. Qed.

Lemma white_space_code c : Utf16.is_white_space (code c) = is_white_space c.
Proof.
  apply Bool.eqb_prop.
  revert c. apply (forall_ascii (fun c => Bool.eqb _ _)). vm_compute. reflexivity.
Qed.

Lemma lower_unit_code c : Utf16.lower_unit (code c) = code (lower_char c).
Proof.
  apply N.eqb_eq.
  revert c. apply (forall_ascii (fun c => N.eqb _ _)). vm_compute. reflexivity.
Qed.

Lemma code_modelled c :
  Utf16.modelled (code c) = true /\ N.eqb (code c) Utf16.Sigma = false /\
  N.ltb (code c) 256 = true.
Proof.
  enough (H : forall c, Utf16.modelled (code c) && negb (N.eqb (code c) Utf16.Sigma)
                        && N.ltb (code c) 256 = true).
  { specialize (H c). apply andb_true_iff in H as [H H3].
    apply andb_true_iff in H as [H1 H2]. apply negb_true_iff in H2. auto. }
  apply forall_ascii. vm_compute. reflexivity.
Qed.

Lemma at_code c : N.eqb 64 (code c) = Ascii.eqb "@" c.
Proof.
  apply Bool.eqb_prop.
  revert c. apply (forall_ascii (fun c => Bool.eqb _ _)). vm_compute. reflexivity.
Qed.

Lemma trimStart_widen s : Utf16.trimStart (Utf16.widen s) = Utf16.widen (trimStart s).
Proof.
  induction s as [|c s IH]; [reflexivity|].
  cbn [Utf16.widen Utf16.trimStart trimStart]. rewrite white_space_code.
  destruct (is_white_space c); [exact IH | reflexivity].
Qed.

Lemma trimEnd_widen s : Utf16.trimEnd (Utf16.widen s) = Utf16.widen (trimEnd s).
Proof.
  induction s as [|c s IH]; [reflexivity|].
  cbn [Utf16.widen Utf16.trimEnd trimEnd]. rewrite IH, white_space_code.
  destruct (trimEnd s); [destruct (is_white_space c)|]; reflexivity.
Qed.

Lemma trim_widen s : Utf16.trim (Utf16.widen s) = Utf16.widen (trim s).
Proof. unfold Utf16.trim, trim. now rewrite trimStart_widen, trimEnd_widen. Qed.

Lemma lower_from_widen after_cased s :
  Utf16.lower_from after_cased (Utf16.widen s) = Utf16.widen (toLowerCase s).
Proof.
  revert after_cased. induction s as [|c s IH]; intros after_cased; [reflexivity|].
  cbn [Utf16.widen Utf16.lower_from toLowerCase].
  destruct (code_modelled c) as (_ & -> & _). cbn [andb].
  now rewrite IH, lower_unit_code.
Qed.

(** On a string of Latin-1 the case mapping of JavaScript is the mapping of
    the characters one by one. *)
Lemma toLowerCase_widen s :
  Utf16.toLowerCase (Utf16.widen s) = Some (Utf16.widen (toLowerCase s)).
Proof.
  unfold Utf16.toLowerCase.
  assert (H : forallb Utf16.modelled (Utf16.widen s) = true).
  { induction s as [|c s IH]; [reflexivity|].
    cbn [Utf16.widen forallb]. now rewrite (proj1 (code_modelled c)). }
  now rewrite H, lower_from_widen.
Qed.

Lemma includes_widen_at s :
  Utf16.includes (Utf16.widen s) (Utf16.widen "@") = includes s "@".
Proof.
  rewrite includes_char.
  induction s as [|c s IH]; [reflexivity|].
  cbn [Utf16.widen Utf16.includes Utf16.prefix occurs] in *.
  now rewrite IH, at_code, andb_true_r.
Qed.

Lemma quote_widen s : Utf16.quote (Utf16.widen s) = Utf16.widen (quote s).
Proof.
  unfold Utf16.quote, quote. cbn [Utf16.widen]. f_equal.
  rewrite widen_app. f_equal.
  induction s as [|c s IH]; [reflexivity|].
  cbn [Utf16.widen flat_map quote_body].
  rewrite widen_app, IH. destruct (code_modelled c) as (_ & _ & ->).
  unfold code. now rewrite ascii_N_embedding.
Qed.

End Wide.

Section WideSignup.

(** On an address of Latin-1 the start of [handleSignup] over code units of
    any size is the start of the handler above: the same validation, and the
    same call. *)
Lemma handleSignup_start_widen env s :
  Utf16.handleSignup_start env (Utf16.widen s) =
  if includes (toLowerCase (trim s)) "@"
  then Utf16.Calls (Utf16.widen_call (signup_call env (toLowerCase (trim s))))
  else Utf16.Invalid.
Proof.
  unfold Utf16.handleSignup_start.
  rewrite trim_widen, toLowerCase_widen, includes_widen_at.
  destruct (includes (toLowerCase (trim s)) "@") eqn:Hat.
  - destruct (Utf16.widen (toLowerCase (trim s))) as [|c u] eqn:Hw.
    + apply widen_empty in Hw. rewrite Hw in Hat. discriminate Hat.
    + rewrite <- Hw. cbn [orb negb]. f_equal.
      unfold Utf16.widen_call, signup_call.
      cbn [up_url up_method up_headers up_body JSON_stringify join]. f_equal.
      rewrite quote_widen, !widen_app, <- !app_assoc. reflexivity.
  - now rewrite orb_true_r.
Qed.

Lemma handleSignup_start_agrees handleSignup request env provider parsed s :
  In handleSignup revisions_of_handleSignup ->
  json request = Some parsed ->
  get parsed "email" = Return (Some (JStr s)) ->
  Utf16.handleSignup_start env (Utf16.widen s) =
  match (run provider (handleSignup request env)).1 with
  | [] => Utf16.Invalid
  | (q, _) :: _ => Utf16.Calls (Utf16.widen_call q)
  end.
Proof.
  intros Hrev Hjson Hget. rewrite handleSignup_start_widen.
  destruct (revisions_of_handleSignup_shape _ Hrev) as (cors & on_error & ->).
  destruct (includes (toLowerCase (trim s)) "@") eqn:Hat.
  - now rewrite (signup_valid_address cors on_error request env provider parsed s
                   Hjson Hget Hat).
  - rewrite (handler_no_address cors on_error request env provider parsed
               (Some (JStr s)) Hjson Hget); [reflexivity|].
    cbn [no_address]. rewrite Hat. apply orb_true_r.
Qed.

End WideSignup.


(** * The responses of [fetch] *)

Section Responses.

Lemma Part000_fetch_responses request env :
  wp (Part000.fetch request env) (fun _ c =>
    forall response, c = Returned response ->
      worker_response Part000.CORS_HEADERS request response).
Proof.
  unfold Part000.fetch, Part000.handleSignup, Part000.handleFeedback,
    Part000.handleUnsubscribe, Worker.handleUnsubscribe, handleFeedback_with,
    Part000.feedback_mail, send_feedback, handleSignup_try.
  walk.
  all: response_leaf.
Qed.

Lemma Part001_fetch_responses request env :
  wp (Part001.fetch request env) (fun _ c =>
    forall response, c = Returned response ->
      worker_response Part001.CORS_HEADERS request response).
Proof.
  unfold Part001.fetch, Part001.handleSignup, Part001.handleUnsubscribe,
    Worker.handleUnsubscribe, handleSignup_try.
  walk.
  all: response_leaf.
Qed.

Lemma Index_fetch_responses request env :
  wp (Index.fetch request env) (fun _ c =>
    forall response, c = Returned response ->
      worker_response Index.CORS_HEADERS request response).
Proof.
  unfold Index.fetch, Index.handleSignup, Index.handleFeedback,
    handleFeedback_with, Index.feedback_mail, send_feedback, handleSignup_try.
  walk.
  all: response_leaf.
Qed.

Lemma Original_fetch_responses request env :
  wp (Original.fetch request env) (fun _ c =>
    forall response, c = Returned response ->
      worker_response Original.CORS_HEADERS request response).
Proof.
  unfold Original.fetch, handleSignup_try.
  walk.
  all: response_leaf.
Qed.

Lemma revisions_of_fetch_responses fetch :
  In fetch revisions_of_fetch ->
  exists cors,
    cors !! "Access-Control-Allow-Origin" = Some "*" /\
    forall request env,
      wp (fetch request env) (fun _ c =>
        forall response, c = Returned response ->
          worker_response cors request response).
Proof.
  intros [<- | [<- | [<- | [<- | []]]]].
  - exists Part000.CORS_HEADERS. split; [reflexivity|]. apply Part000_fetch_responses.
  - exists Part001.CORS_HEADERS. split; [reflexivity|]. apply Part001_fetch_responses.
  - exists Index.CORS_HEADERS. split; [reflexivity|]. apply Index_fetch_responses.
  - exists Original.CORS_HEADERS. split; [reflexivity|]. apply Original_fetch_responses.
Qed.

Lemma worker_response_origin cors request response :
  cors !! "Access-Control-Allow-Origin" = Some "*" ->
  worker_response cors request response ->
  allows_any_origin response.
Proof.
  intros Hcors [| | |]; unfold allows_any_origin; cbn; try assumption;
    unfold with_content_type; now rewrite lookup_insert_ne.
Qed.

Lemma worker_response_shape cors request response :
  worker_response cors request response ->
  allowed_status (status response) /\
  (is_envelope (body response) \/
   (is_preflight request /\ body response = None) \/
   (asks_for_page request /\ body response = Some getUnsubscribePageHTML)).
Proof.
  unfold allowed_status, is_envelope.
  intros [Hpre | Hpage | message | st error Hst]; cbn [status body new_Response
    json_response default from_option id].
  - auto.
  - auto.
  - split; [auto|]. left. left. exists message. reflexivity.
  - split; [tauto|]. left. right. exists error. reflexivity.
Qed.

(** When [fetch] returns at all: always, but for the revision of part_000 on
    a POST to /unsubscribe whose body is not JSON or is [null], where the
    exception leaves the handler. *)
Lemma fetch_returns request env :
  wp (Part000.fetch request env) (fun _ c =>
    (exists response, c = Returned response) \/
    (method request = "POST" /\ pathname request = "/unsubscribe" /\
     (json request = None \/ json request = Some JNull))) /\
  wp (Part001.fetch request env) (fun _ c => exists response, c = Returned response) /\
  wp (Index.fetch request env) (fun _ c => exists response, c = Returned response) /\
  wp (Original.fetch request env) (fun _ c => exists response, c = Returned response).
Proof.
  repeat split.
  - unfold Part000.fetch, Part000.handleSignup, Part000.handleFeedback,
      Part000.handleUnsubscribe, Worker.handleUnsubscribe, handleFeedback_with,
      Part000.feedback_mail, send_feedback, handleSignup_try.
    walk.
    all: try (left; eexists; reflexivity).
    all: right;
      repeat match goal with
             | H : String.eqb _ _ = true |- _ => apply String.eqb_eq in H
             end; auto.
  - unfold Part001.fetch, Part001.handleSignup, Part001.handleUnsubscribe,
      Worker.handleUnsubscribe, handleSignup_try.
    walk. all: eexists; reflexivity.
  - unfold Index.fetch, Index.handleSignup, Index.handleFeedback,
      handleFeedback_with, Index.feedback_mail, send_feedback, handleSignup_try.
    walk. all: eexists; reflexivity.
  - unfold Original.fetch, handleSignup_try.
    walk. all: eexists; reflexivity.
Qed.

End Responses.

(** C4, as amended: every response of [fetch], in each revision and for every
    method and path, has a status in {200, 400, 405, 500}; its body is one of
    the JSON envelopes [{success, message}] and [{error}], except that the
    answer to a preflight (OPTIONS) has no body and the answer to a GET of
    /unsubscribe without an e-mail is the HTML page. *)
Theorem fetch_response_status_and_body fetch request env provider calls response :
  In fetch revisions_of_fetch ->
  run provider (fetch request env) = (calls, Returned response) ->
  allowed_status (status response) /\
  (is_envelope (body response) \/
   (is_preflight request /\ body response = None) \/
   (asks_for_page request /\ body response = Some getUnsubscribePageHTML)).
Proof.
  intros Hrev Hrun.
  destruct (revisions_of_fetch_responses _ Hrev) as (cors & _ & Hwp).
  apply (worker_response_shape cors).
  exact (wp_run_eq _ _ _ _ _ (Hwp request env) Hrun response eq_refl).
Qed.

Lemma fetch_response_status_and_body_witness :
  let request := mkRequest "DELETE" "/unsubscribe" None None in
  let provider := answering 200 (Some (JObj [])) in
  exists response,
    run provider (Part001.fetch request example_env) = ([], Returned response) /\
    allowed_status (status response) /\
    (is_envelope (body response) \/
     (is_preflight request /\ body response = None) \/
     (asks_for_page request /\ body response = Some getUnsubscribePageHTML)).
Proof.
  intros request provider. eexists. split; [reflexivity|].
  apply (fetch_response_status_and_body Part001.fetch request example_env provider []).
  - right. left. reflexivity.
  - reflexivity.
Defined.

(** C4, as stated, fails: the answer to a preflight has no body at all. *)
Lemma preflight_has_no_json_body :
  ~ (forall fetch request env provider calls response,
       In fetch revisions_of_fetch ->
       run provider (fetch request env) = (calls, Returned response) ->
       allowed_status (status response) /\ is_envelope (body response)).
Proof.
  intros H.
  destruct (H Part000.fetch (mkRequest "OPTIONS" "/" None None) example_env
              (answering 200 None) []
              (new_Response None None Part000.CORS_HEADERS))
    as [_ [[message Hbody] | [error Hbody]]].
  - left. reflexivity.
  - reflexivity.
  - discriminate Hbody.
  - discriminate Hbody.
Qed.

(** The unsubscribe page is the other response that is no JSON envelope. *)
Lemma page_is_no_json_body :
  exists response,
    run (answering 200 None)
      (Part000.fetch (mkRequest "GET" "/unsubscribe" None None) example_env) =
    ([], Returned response) /\
    status response = 200 /\
    headers response !! "Content-Type" = Some "text/html" /\
    ~ is_envelope (body response).
Proof.
  eexists. split; [reflexivity|]. split; [reflexivity|]. split; [reflexivity|].
  intros [[message Hbody] | [error Hbody]];
    apply (f_equal (fun b => slice0 1 <$> b)) in Hbody;
    vm_compute in Hbody; discriminate Hbody.
Qed.

(** C8: every response that [fetch] returns, in each revision and on every
    path, method and outcome, has the header
    [Access-Control-Allow-Origin: *]. *)
Theorem fetch_response_allows_any_origin fetch request env provider calls response :
  In fetch revisions_of_fetch ->
  run provider (fetch request env) = (calls, Returned response) ->
  allows_any_origin response.
Proof.
  intros Hrev Hrun.
  destruct (revisions_of_fetch_responses _ Hrev) as (cors & Hcors & Hwp).
  apply (worker_response_origin cors request); [assumption|].
  exact (wp_run_eq _ _ _ _ _ (Hwp request env) Hrun response eq_refl).
Qed.

Lemma fetch_response_allows_any_origin_witness :
  let request := mkRequest "GET" "/unsubscribe" None None in
  let provider := answering 200 (Some (JObj [])) in
  exists response,
    run provider (Part000.fetch request example_env) = ([], Returned response) /\
    allows_any_origin response.
Proof.
  intros request provider. eexists. split; [reflexivity|].
  apply (fetch_response_allows_any_origin Part000.fetch request example_env provider []).
  - left. reflexivity.
  - reflexivity.
Defined.

(** * The two ways to unsubscribe *)

(** C7, as amended: for every e-mail string [E] that is not empty, a GET of
    /unsubscribe with the query parameter [email=E] and a POST to
    /unsubscribe with a JSON body whose [email] is [E] both run
    [handleUnsubscribe] on [E]: the same calls to the provider, the same
    response. *)
Theorem unsubscribe_get_and_post_agree
    fetch handleUnsubscribe get_request post_request fields E env provider :
  In (fetch, handleUnsubscribe) revisions_with_unsubscribe ->
  E <> "" ->
  method get_request = "GET" ->
  pathname get_request = "/unsubscribe" ->
  searchParams_email get_request = Some E ->
  method post_request = "POST" ->
  pathname post_request = "/unsubscribe" ->
  json post_request = Some (JObj fields) ->
  lookup_field "email" fields = Some (JStr E) ->
  run provider (fetch get_request env) =
    run provider (handleUnsubscribe (Some (JStr E)) env) /\
  run provider (fetch post_request env) =
    run provider (handleUnsubscribe (Some (JStr E)) env).
Proof.
  intros Hrev HE Hget1 Hget2 Hget3 Hpost1 Hpost2 Hpost3 Hemail.
  apply String.eqb_neq in HE.
  destruct get_request as [gm gp ge gj], post_request as [pm pp pe pj].
  cbn [method pathname searchParams_email json] in *. subst.
  destruct Hrev as [[= <- <-] | [[= <- <-] | []]]; split; f_equal.
  - unfold Part000.fetch. cbn [method pathname searchParams_email json].
    eval_tests. cbn [str fmap option_fmap option_map truthy]. now rewrite HE.
  - unfold Part000.fetch. cbn [method pathname searchParams_email json].
    eval_tests. unfold mbind, Async_bind.
    cbn [request_json json bind get]. now rewrite Hemail.
  - unfold Part001.fetch. cbn [method pathname searchParams_email json].
    eval_tests. cbn [str fmap option_fmap option_map truthy]. now rewrite HE.
  - unfold Part001.fetch. cbn [method pathname searchParams_email json].
    eval_tests. unfold mbind, mret, Async_bind, Async_ret.
    cbn [request_json json bind try_catch get]. now rewrite Hemail.
Qed.

Lemma unsubscribe_get_and_post_agree_witness :
  let provider := answering 200 (Some (JObj [("id", JStr "c_1")])) in
  run provider (Part001.fetch (get_unsubscribe "ann@example.com") example_env) =
    run provider (Part001.handleUnsubscribe (Some (JStr "ann@example.com")) example_env) /\
  run provider
    (Part001.fetch (post "/unsubscribe" (JObj [("email", JStr "ann@example.com")]))
       example_env) =
    run provider (Part001.handleUnsubscribe (Some (JStr "ann@example.com")) example_env).
Proof.
  intros provider.
  apply (unsubscribe_get_and_post_agree Part001.fetch Part001.handleUnsubscribe
           (get_unsubscribe "ann@example.com")
           (post "/unsubscribe" (JObj [("email", JStr "ann@example.com")]))
           [("email", JStr "ann@example.com")] "ann@example.com").
  - right. left. reflexivity.
  - discriminate.
  - reflexivity.
  - reflexivity.
  - reflexivity.
  - reflexivity.
  - reflexivity.
  - reflexivity.
  - reflexivity.
Defined.

(** C7, as stated, fails on the empty string: the GET with [email=] is
    answered with the unsubscribe page (status 200), the POST with
    [{email: ''}] with status 400. *)
Lemma unsubscribe_get_and_post_differ_on_empty :
  ~ (forall E env provider,
       run provider (Part000.fetch (get_unsubscribe E) env) =
       run provider (Part000.fetch (post "/unsubscribe" (JObj [("email", JStr E)])) env)).
Proof.
  intros H.
  specialize (H "" example_env (answering 200 None)).
  apply (f_equal (fun r => match r.2 with
                           | Returned response => status response
                           | Threw _ => 0
                           end)) in H.
  vm_compute in H. discriminate H.
Qed.

(** * The feedback e-mail *)

Section Feedback.

(** In the revision of part_000 every feedback e-mail sent to the provider
    has, as its HTML, the fixed markup around the escaped type, message and
    address of the sender. *)
Lemma Part000_feedback_html_escaped request env :
  wp (Part000.handleFeedback request env) (fun calls c =>
    forall q r, In (q, r) calls ->
      exists sent t m e mail,
        json request = Some (JObj sent) /\
        lookup_field "message" sent = Some (JStr m) /\
        or_else (lookup_field "type" sent) (Some (JStr "Feedback")) = Some (JStr t) /\
        or_else (lookup_field "email" sent) (Some (JStr "Anonymous")) = Some (JStr e) /\
        up_body q = JSON_stringify (JObj mail) /\
        lookup_field "html" mail =
          Some (JStr (escaped_feedback_html
                        (ToString (str (FORWARD_EMAIL env))) t m e))).
Proof.
  unfold Part000.handleFeedback, handleFeedback_with, Part000.feedback_mail,
    send_feedback.
  walk.
  all: intros q' r' Hin; split_calls.
  all: cbn [up_body]; unfold object; rewrite !replace_class_entity.
  all: destruct (ADMIN_EMAIL env),
         (or_else (lookup_field "email" fields) undefined).
  all: eexists _, _, _, _, _.
  all: split; [reflexivity|]; split; [eassumption|].
  all: split; [eassumption|]; split; [eassumption|].
  all: split; [reflexivity|].
  all: cbn [defined_props str fmap option_fmap option_map lookup_field];
       eval_tests; unfold escaped_feedback_html; exact eq_refl.
Qed.

(** C3 on the revision of src/worker/index.js, at a message, an address and
    a type that hold markup: the HTML of the e-mail sent to the admin holds
    the three as they came, not escaped. *)
Lemma Index_feedback_html_not_escaped :
  let request :=
    post "/feedback"
      (JObj [("message", JStr "<img src=x onerror=alert(1)>");
             ("email", JStr "<u>ann@example.com</u>");
             ("type", JStr "<h1>Bug</h1>")]) in
  let provider := answering 200 (Some (JObj [("id", JStr "m_1")])) in
  exists q r mail html,
    (run provider (Index.fetch request example_env)).1 = [(q, r)] /\
    up_body q = JSON_stringify (JObj mail) /\
    lookup_field "html" mail = Some (JStr html) /\
    includes html "<img src=x onerror=alert(1)>" = true /\
    includes html "<u>ann@example.com</u>" = true /\
    includes html "<h1>Bug</h1>" = true.
Proof.
  intros request provider.
  let t := eval vm_compute in
        (Index.feedback_mail "<img src=x onerror=alert(1)>"
           (Some (JStr "<u>ann@example.com</u>")) (Some (JStr "<h1>Bug</h1>"))) in
  lazymatch t with
  | Return (JObj ?mail) => eexists _, _, mail, _
  end.
  split; [vm_compute; reflexivity|].
  split; [vm_compute; reflexivity|].
  split; [vm_compute; reflexivity|].
  repeat split; vm_compute; reflexivity.
Qed.

End Feedback.

(** * A call to the provider that fails *)

Section UpstreamFailure.

(** In the revision of part_000, on every route: a call that is answered
    with a status that is not ok, the two special cases apart, is the only
    call of the request, and the response is a 500 with an [{error}] body. *)
Lemma Part000_upstream_failure request env :
  wp (Part000.fetch request env) (fun calls c =>
    forall q r, In (q, Answered r) calls ->
      ok r = false -> ~ special_case request r ->
      calls = [(q, Answered r)] /\ fails_with_500 c).
Proof.
  unfold fails_with_500.
  unfold Part000.fetch, Part000.handleSignup, Part000.handleFeedback,
    Part000.handleUnsubscribe, Worker.handleUnsubscribe, handleFeedback_with,
    Part000.feedback_mail, send_feedback, handleSignup_try.
  walk.
  all: failure_leaf.
Qed.

(** The same for [handleUnsubscribe], which the revisions share. *)
Lemma handleUnsubscribe_upstream_failure cors email env :
  wp (Worker.handleUnsubscribe cors email env) (fun calls c =>
    forall q r, In (q, Answered r) calls ->
      ok r = false -> up_status r <> 404 ->
      calls = [(q, Answered r)] /\ fails_with_500 c).
Proof.
  unfold fails_with_500, Worker.handleUnsubscribe. walk.
  all: intros q' r' Hin Hok H404; split_calls; numbers; try congruence.
  all: split; [reflexivity | eexists _, _; repeat split; reflexivity].
Qed.

(** C6 on the revision of part_001, at a signup whose call to the provider is
    answered 502 with a body that is not JSON: [response.json()] rejects with
    a SyntaxError, which the [catch] clause takes for a parse error of the
    request; the response is 400 'Invalid request body', not a 500. *)
Lemma Part001_signup_failure_answers_400 :
  let request := post "/" (JObj [("email", JStr "ann@example.com")]) in
  let answer := mkUpResponse 502 None in
  exists q response,
    run (fun _ => Answered answer) (Part001.fetch request example_env) =
      ([(q, Answered answer)], Returned response) /\
    ok answer = false /\ ~ special_case request answer /\
    status response = 400 /\
    body response = Some (error_body "Invalid request body").
Proof.
  intros request answer. eexists _, _.
  split; [vm_compute; reflexivity|].
  split; [reflexivity|].
  split; [|split; reflexivity].
  intros [[Hpath _] | (_ & _ & Hsays)]; discriminate.
Qed.

(** The revision of part_000 answers the same request and the same failure
    with a 500. *)
Lemma Part000_signup_failure_answers_500 :
  let request := post "/" (JObj [("email", JStr "ann@example.com")]) in
  let answer := mkUpResponse 502 None in
  exists q response,
    run (fun _ => Answered answer) (Part000.fetch request example_env) =
      ([(q, Answered answer)], Returned response) /\
    status response = 500 /\
    body response = Some (error_body "Server error").
Proof.
  intros request answer. eexists _, _.
  split; [vm_compute; reflexivity|]. split; reflexivity.
Qed.

End UpstreamFailure.

(** * Further facts about strings *)

Section MoreStrings.

#[local] Arguments String.append !_ _ / : simpl nomatch.

Lemma trimEnd_cons c r :
  trimEnd (String c r) =
  match trimEnd r with
  | EmptyString => if is_white_space c then EmptyString else String c EmptyString
  | r' => String c r'
  end.
Proof. reflexivity. Qed.

Lemma trimEnd_idempotent s : trimEnd (trimEnd s) = trimEnd s.
Proof.
  induction s as [|c s IH]; [reflexivity|].
  rewrite trimEnd_cons. destruct (trimEnd s) as [|d t] eqn:E.
  - destruct (is_white_space c) eqn:W; [reflexivity|].
    rewrite trimEnd_cons. cbn [trimEnd]. now rewrite W.
  - rewrite trimEnd_cons, IH. reflexivity.
Qed.

(** What [trimStart] returns is empty or starts with a character that is no
    white space, and [trimEnd] keeps that. *)
Lemma trimStart_head s :
  match trimStart s with
  | EmptyString => True
  | String c _ => is_white_space c = false
  end.
Proof.
  induction s as [|c s IH]; cbn [trimStart]; [exact I|].
  destruct (is_white_space c) eqn:W; [exact IH | exact W].
Qed.

Lemma trimStart_fixed t :
  match t with
  | EmptyString => True
  | String c _ => is_white_space c = false
  end -> trimStart (trimEnd t) = trimEnd t.
Proof.
  destruct t as [|c r]; [reflexivity|]. intros W. rewrite trimEnd_cons.
  destruct (trimEnd r); rewrite ?W; cbn [trimStart]; now rewrite W.
Qed.

Lemma trim_idempotent s : trim (trim s) = trim s.
Proof.
  unfold trim. rewrite trimStart_fixed by apply trimStart_head.
  apply trimEnd_idempotent.
Qed.

Lemma toLowerCase_idempotent s : toLowerCase (toLowerCase s) = toLowerCase s.
Proof.
  induction s as [|c s IH]; cbn [toLowerCase]; [reflexivity|].
  now rewrite lower_char_idempotent, IH.
Qed.

Lemma clean_address_normalised s :
  toLowerCase (trim s) <> "" ->
  includes (toLowerCase (trim s)) "@" = true ->
  clean_address (toLowerCase (trim s)).
Proof.
  intros Hne Hat. repeat split; try assumption.
  - now rewrite <- trim_toLowerCase, trim_idempotent.
  - apply toLowerCase_idempotent.
Qed.

Lemma every_app P s t : every P (s +:+ t) = every P s && every P t.
Proof.
  induction s as [|c s IH]; cbn [every String.append]; [reflexivity|].
  now rewrite IH, andb_assoc.
Qed.

Lemma encode_char_segment c : every segment_char (encode_char c) = true.
Proof.
  revert c. apply forall_ascii. vm_compute. reflexivity.
Qed.

Lemma encodeURIComponent_segment s :
  every segment_char (encodeURIComponent s) = true.
Proof.
  induction s as [|c s IH]; cbn [encodeURIComponent]; [reflexivity|].
  now rewrite every_app, encode_char_segment, IH.
Qed.

Lemma count_app c s t : count c (s +:+ t) = (count c s + count c t)%nat.
Proof.
  induction s as [|d s IH]; cbn [count String.append]; [reflexivity|].
  rewrite IH. lia.
Qed.

End MoreStrings.

(** * The contract of [fetch] *)

Section Contract.

Lemma Part000_fetch_contract request env :
  wp (Part000.fetch request env) (fetch_contract Part000.CORS_HEADERS env).
Proof.
  unfold Part000.fetch, Part000.handleSignup, Part000.handleFeedback,
    Part000.handleUnsubscribe, Worker.handleUnsubscribe, handleFeedback_with,
    Part000.feedback_mail, send_feedback, handleSignup_try.
  walk.
  all: contract_leaf.
Qed.

Lemma Part001_fetch_contract request env :
  wp (Part001.fetch request env) (fetch_contract Part001.CORS_HEADERS env).
Proof.
  unfold Part001.fetch, Part001.handleSignup, Part001.handleUnsubscribe,
    Worker.handleUnsubscribe, handleSignup_try.
  walk.
  all: contract_leaf.
Qed.

Lemma Index_fetch_contract request env :
  wp (Index.fetch request env) (fetch_contract Index.CORS_HEADERS env).
Proof.
  unfold Index.fetch, Index.handleSignup, Index.handleFeedback,
    handleFeedback_with, Index.feedback_mail, send_feedback, handleSignup_try.
  walk.
  all: contract_leaf.
Qed.

Lemma Original_fetch_contract request env :
  wp (Original.fetch request env) (fetch_contract Original.CORS_HEADERS env).
Proof.
  unfold Original.fetch, handleSignup_try.
  walk.
  all: contract_leaf.
Qed.

End Contract.

(** * What every run of [fetch] keeps *)

Section FetchInvariants.

Lemma revisions_of_fetch_contract fetch cors request env :
  In (fetch, cors) revisions_with_headers ->
  wp (fetch request env) (fetch_contract cors env).
Proof.
  intros [[= <- <-] | [[= <- <-] | [[= <- <-] | [[= <- <-] | []]]]].
  - apply Part000_fetch_contract.
  - apply Part001_fetch_contract.
  - apply Index_fetch_contract.
  - apply Original_fetch_contract.
Qed.

Lemma revisions_of_fetch_headers fetch :
  In fetch revisions_of_fetch -> exists cors, In (fetch, cors) revisions_with_headers.
Proof.
  intros [<- | [<- | [<- | [<- | []]]]]; eexists; cbn; eauto 6.
Qed.

Lemma in_table_In status b :
  in_table status b = true -> In (status, b) response_table.
Proof.
  unfold in_table. rewrite existsb_exists.
  intros ([st b'] & Hin & Heq). cbn [fst snd] in Heq.
  apply andb_true_iff in Heq as [Hst Hb].
  apply Z.eqb_eq in Hst. apply String.eqb_eq in Hb. now subst.
Qed.

End FetchInvariants.

(** X1: whatever the request and whatever the provider answers, [fetch]
    calls the provider at most once: no handler retries, and none makes a
    second call after the first. *)
Theorem fetch_calls_at_most_once fetch request env provider calls c :
  In fetch revisions_of_fetch ->
  run provider (fetch request env) = (calls, c) ->
  (length calls <= 1)%nat.
Proof.
  intros Hrev Hrun.
  destruct (revisions_of_fetch_headers _ Hrev) as [cors Hcors].
  exact (proj1 (wp_run_eq _ _ _ _ _
                  (revisions_of_fetch_contract _ _ request env Hcors) Hrun)).
Qed.

Lemma fetch_calls_at_most_once_witness :
  let request := post "/feedback" (JObj [("message", JStr "Great site")]) in
  let run1 := run (answering 500 None) (Index.fetch request example_env) in
  (length run1.1 <= 1)%nat.
Proof.
  intros request run1.
  apply (fetch_calls_at_most_once Index.fetch request example_env
           (answering 500 None) run1.1 run1.2).
  - right. right. left. reflexivity.
  - apply surjective_pairing.
Defined.

(** X2: every call the worker makes goes to the API of the provider
    (https://api.resend.com/), with the method POST or PATCH, the bearer
    token of the environment and the content type of JSON. *)
Theorem fetch_calls_the_provider_only fetch request env provider calls c q r :
  In fetch revisions_of_fetch ->
  run provider (fetch request env) = (calls, c) ->
  In (q, r) calls ->
  provider_call env q.
Proof.
  intros Hrev Hrun Hin.
  destruct (revisions_of_fetch_headers _ Hrev) as [cors Hcors].
  exact (proj1 (proj2 (wp_run_eq _ _ _ _ _
                         (revisions_of_fetch_contract _ _ request env Hcors) Hrun))
           q r Hin).
Qed.

Lemma fetch_calls_the_provider_only_witness :
  let request := get_unsubscribe "ann@example.com" in
  let provider := answering 200 (Some (JObj [])) in
  let run1 := run provider (Part000.fetch request example_env) in
  exists q r, In (q, r) run1.1 /\ provider_call example_env q.
Proof.
  intros request provider run1.
  exists (fst (hd (mkUpRequest "" "" ∅ "", Rejected) run1.1)),
         (snd (hd (mkUpRequest "" "" ∅ "", Rejected) run1.1)).
  assert (Hin : In (fst (hd (mkUpRequest "" "" ∅ "", Rejected) run1.1),
                    snd (hd (mkUpRequest "" "" ∅ "", Rejected) run1.1)) run1.1).
  { vm_compute. left. reflexivity. }
  split; [exact Hin|].
  apply (fetch_calls_the_provider_only Part000.fetch request example_env provider
           run1.1 run1.2 _
           (snd (hd (mkUpRequest "" "" ∅ "", Rejected) run1.1))).
  - left. reflexivity.
  - apply surjective_pairing.
  - exact Hin.
Defined.

(** X3: a response of [fetch] is the empty answer to a preflight, the
    unsubscribe page, or one of thirteen fixed pairs of a status and a JSON
    body; nothing the provider answered and nothing the request held is
    copied into a response. *)
Theorem fetch_response_is_in_the_table fetch request env provider calls response :
  In fetch revisions_of_fetch ->
  run provider (fetch request env) = (calls, Returned response) ->
  (body response = None /\ status response = 200) \/
  (body response = Some getUnsubscribePageHTML /\ status response = 200) \/
  (exists b, body response = Some b /\ In (status response, b) response_table).
Proof.
  intros Hrev Hrun.
  destruct (revisions_of_fetch_headers _ Hrev) as [cors Hcors].
  destruct (proj2 (proj2 (wp_run_eq _ _ _ _ _
              (revisions_of_fetch_contract _ _ request env Hcors) Hrun))
              response eq_refl) as (_ & Htable & _).
  destruct (body response) as [b|]; [|left; now split].
  destruct (String.eqb b getUnsubscribePageHTML) eqn:Hpage.
  - apply String.eqb_eq in Hpage. subst. right. left. now split.
  - right. right. exists b. split; [reflexivity|]. now apply in_table_In.
Qed.

Lemma fetch_response_is_in_the_table_witness :
  let request := post "/" (JObj [("email", JStr "ann@example.com")]) in
  let provider :=
    answering 422 (Some (JObj [("message", JStr "secret detail of the provider")])) in
  exists calls response,
    run provider (Part001.fetch request example_env) = (calls, Returned response) /\
    ((body response = None /\ status response = 200) \/
     (body response = Some getUnsubscribePageHTML /\ status response = 200) \/
     (exists b, body response = Some b /\ In (status response, b) response_table)).
Proof.
  intros request provider. eexists _, _. split; [vm_compute; reflexivity|].
  eapply (fetch_response_is_in_the_table Part001.fetch request example_env provider).
  - right. left. reflexivity.
  - vm_compute. reflexivity.
Defined.

(** X4: the headers of a response of [fetch] are the CORS headers of the
    revision, to which the [Content-Type] of the body is added: none for the
    empty body, [text/html] for the page, [application/json] for a JSON
    body. *)
Theorem fetch_response_headers fetch cors request env provider calls response :
  In (fetch, cors) revisions_with_headers ->
  run provider (fetch request env) = (calls, Returned response) ->
  headers response !! "Content-Type" = content_type (body response) /\
  forall name, name <> "Content-Type" -> headers response !! name = cors !! name.
Proof.
  intros Hcors Hrun.
  destruct (proj2 (proj2 (wp_run_eq _ _ _ _ _
              (revisions_of_fetch_contract _ _ request env Hcors) Hrun))
              response eq_refl) as (Hheaders & _ & _).
  rewrite Hheaders. unfold headers_for, content_type.
  assert (Hnone : cors !! "Content-Type" = None).
  { destruct Hcors as [[= <- <-] | [[= <- <-] | [[= <- <-] | [[= <- <-] | []]]]];
      reflexivity. }
  destruct (body response) as [b|]; [|split; [exact Hnone | reflexivity]].
  destruct (String.eqb b getUnsubscribePageHTML).
  - split; [apply lookup_insert_eq|]. intros name Hname.
    now rewrite lookup_insert_ne.
  - split; [apply lookup_insert_eq|]. intros name Hname.
    now rewrite lookup_insert_ne.
Qed.

Lemma fetch_response_headers_witness :
  let request := mkRequest "GET" "/unsubscribe" None None in
  let provider := answering 200 None in
  exists response,
    run provider (Part001.fetch request example_env) = ([], Returned response) /\
    headers response !! "Content-Type" = Some "text/html" /\
    forall name, name <> "Content-Type" ->
      headers response !! name = Part001.CORS_HEADERS !! name.
Proof.
  intros request provider. eexists. split; [reflexivity|].
  apply (fetch_response_headers Part001.fetch Part001.CORS_HEADERS request
           example_env provider []).
  - right. left. reflexivity.
  - reflexivity.
Defined.

(** X5: [fetch] reports a success (status 200 with a [{success, message}]
    body) only after the provider was called once and answered: with an ok
    status; with a 404 and a JSON body to the PATCH of a contact of the
    audience (the call of an unsubscription); or with a status that is not
    ok and 'already exists' to the POST to the contacts of the audience (the
    call of a subscription, which the POST of a feedback to /emails is
    not). *)
Theorem fetch_success_is_backed_by_the_provider
    fetch request env provider calls response :
  In fetch revisions_of_fetch ->
  run provider (fetch request env) = (calls, Returned response) ->
  is_success response ->
  exists q r, calls = [(q, Answered r)] /\ accepted env q r.
Proof.
  intros Hrev Hrun Hsuccess.
  destruct (revisions_of_fetch_headers _ Hrev) as [cors Hcors].
  exact (proj2 (proj2 (proj2 (proj2 (wp_run_eq _ _ _ _ _
              (revisions_of_fetch_contract _ _ request env Hcors) Hrun))
              response eq_refl)) Hsuccess).
Qed.

Lemma fetch_success_is_backed_by_the_provider_witness :
  let request := post "/unsubscribe" (JObj [("email", JStr "ann@example.com")]) in
  let provider := answering 404 (Some (JObj [("name", JStr "not_found")])) in
  let run1 := run provider (Part001.fetch request example_env) in
  exists response,
    run1.2 = Returned response /\ is_success response /\
    exists q r, run1.1 = [(q, Answered r)] /\ accepted example_env q r.
Proof.
  intros request provider run1.
  assert (Hrun : exists response, run1.2 = Returned response /\ is_success response).
  { eexists. split; [vm_compute; reflexivity|].
    split; [reflexivity|]. exists "You have been unsubscribed.". reflexivity. }
  destruct Hrun as (response & Hc & Hsuccess).
  exists response. split; [exact Hc|]. split; [exact Hsuccess|].
  apply (fetch_success_is_backed_by_the_provider Part001.fetch request example_env
           provider run1.1 response).
  - right. left. reflexivity.
  - rewrite <- Hc. apply surjective_pairing.
  - exact Hsuccess.
Defined.

(** * The calls of the handlers *)

Section Calls.

Variable cors : gmap string string.

Lemma signup_call_shape on_error request env :
  wp (try_catch (handleSignup_try cors request env) (fun e => Return (on_error e)))
    (fun calls c =>
       forall q r, In (q, r) calls ->
         exists parsed s,
           json request = Some parsed /\
           get parsed "email" = Return (Some (JStr s)) /\
           up_method q = "POST" /\
           up_url q = "https://api.resend.com/audiences/" +:+
                      ToString (str (RESEND_AUDIENCE_ID env)) +:+ "/contacts" /\
           up_body q = JSON_stringify
                         (JObj [("email", JStr (toLowerCase (trim s)));
                                ("unsubscribed", JBool false)]) /\
           clean_address (toLowerCase (trim s))).
Proof.
  unfold handleSignup_try. walk.
  all: intros q' r' Hin; split_calls.
  all: eexists (JObj _), _.
  all: split; [reflexivity|].
  all: split; [cbn [get]; f_equal; eassumption|].
  all: split; [reflexivity|]; split; [reflexivity|].
  all: match goal with
       | H : toLowerCase (trim _) = String _ _ |- _ =>
           split; [rewrite H; reflexivity|];
           apply clean_address_normalised; rewrite H; [discriminate|]
       end.
  all: numbers; assumption.
Qed.

Lemma unsubscribe_call_shape email env :
  wp (Worker.handleUnsubscribe cors email env) (fun calls c =>
    forall q r, In (q, r) calls ->
      exists s,
        email = Some (JStr s) /\ includes s "@" = true /\
        up_method q = "PATCH" /\
        up_url q = "https://api.resend.com/audiences/" +:+
                   ToString (str (RESEND_AUDIENCE_ID env)) +:+ "/contacts/" +:+
                   encodeURIComponent (toLowerCase (trim s)) /\
        up_body q = JSON_stringify (JObj [("unsubscribed", JBool true)]) /\
        every segment_char (encodeURIComponent (toLowerCase (trim s))) = true).
Proof.
  unfold Worker.handleUnsubscribe. walk.
  all: intros q' r' Hin; split_calls.
  all: eexists; split; [reflexivity|].
  all: split; [numbers; assumption|].
  all: repeat (split; [reflexivity|]).
  all: apply encodeURIComponent_segment.
Qed.

Lemma unsubscribe_outcome_decides email env :
  wp (Worker.handleUnsubscribe cors email env) (fun calls c =>
    forall q f, calls = [(q, f)] ->
      exists response,
        c = Returned response /\
        status response = fst (unsubscribe_outcome f) /\
        body response = Some (snd (unsubscribe_outcome f))).
Proof.
  unfold Worker.handleUnsubscribe. walk.
  all: outcome_leaf.
Qed.

End Calls.

Section FeedbackOutcome.

Lemma Part000_feedback_outcome_decides request env :
  wp (Part000.handleFeedback request env) (fun calls c =>
    forall q f, calls = [(q, f)] ->
      exists response,
        c = Returned response /\
        status response = fst (feedback_outcome f) /\
        body response = Some (snd (feedback_outcome f))).
Proof.
  unfold Part000.handleFeedback, handleFeedback_with, Part000.feedback_mail,
    send_feedback.
  walk.
  all: outcome_leaf.
Qed.

Lemma Index_feedback_outcome_decides request env :
  wp (Index.handleFeedback request env) (fun calls c =>
    forall q f, calls = [(q, f)] ->
      exists response,
        c = Returned response /\
        status response = fst (feedback_outcome f) /\
        body response = Some (snd (feedback_outcome f))).
Proof.
  unfold Index.handleFeedback, handleFeedback_with, Index.feedback_mail,
    send_feedback.
  walk.
  all: outcome_leaf.
Qed.

End FeedbackOutcome.

(** X6: every call [handleSignup] makes is a POST to the contacts of the
    audience whose body is [{email, unsubscribed: false}], where the e-mail
    is the string of the request trimmed and lower-cased: not empty, with an
    @, without white space at either end and without capital letters.  A
    request whose e-mail is no string makes no call. *)
Theorem signup_sends_the_clean_address handleSignup request env provider calls c q r :
  In handleSignup revisions_of_handleSignup ->
  run provider (handleSignup request env) = (calls, c) ->
  In (q, r) calls ->
  exists parsed s,
    json request = Some parsed /\
    get parsed "email" = Return (Some (JStr s)) /\
    up_method q = "POST" /\
    up_url q = "https://api.resend.com/audiences/" +:+
               ToString (str (RESEND_AUDIENCE_ID env)) +:+ "/contacts" /\
    up_body q = JSON_stringify
                  (JObj [("email", JStr (toLowerCase (trim s)));
                         ("unsubscribed", JBool false)]) /\
    clean_address (toLowerCase (trim s)).
Proof.
  intros Hrev Hrun Hin.
  destruct (revisions_of_handleSignup_shape _ Hrev) as (cors & on_error & ->).
  exact (wp_run_eq _ _ _ _ _ (signup_call_shape cors on_error request env) Hrun
           q r Hin).
Qed.

Lemma signup_sends_the_clean_address_witness :
  let request := post "/" (JObj [("email", JStr "  Ann@Example.COM ")]) in
  let provider := answering 200 (Some (JObj [("id", JStr "c_1")])) in
  let run1 := run provider (Part001.handleSignup request example_env) in
  exists q r parsed s,
    In (q, r) run1.1 /\
    json request = Some parsed /\
    get parsed "email" = Return (Some (JStr s)) /\
    up_method q = "POST" /\
    up_url q = "https://api.resend.com/audiences/" +:+
               ToString (str (RESEND_AUDIENCE_ID example_env)) +:+ "/contacts" /\
    up_body q = JSON_stringify
                  (JObj [("email", JStr (toLowerCase (trim s)));
                         ("unsubscribed", JBool false)]) /\
    clean_address (toLowerCase (trim s)).
Proof.
  intros request provider run1.
  pose (call := hd (mkUpRequest "" "" ∅ "", Rejected) run1.1).
  assert (Hin : In (fst call, snd call) run1.1).
  { vm_compute. left. reflexivity. }
  destruct (signup_sends_the_clean_address Part001.handleSignup request example_env
              provider run1.1 run1.2 (fst call) (snd call))
    as (parsed & s & H).
  - right. left. reflexivity.
  - apply surjective_pairing.
  - exact Hin.
  - exists (fst call), (snd call), parsed, s. split; [exact Hin | exact H].
Defined.

(** X7: every call [handleUnsubscribe] makes comes from an e-mail that is a
    string with an @; it is a PATCH with the body [{unsubscribed: true}] to
    the contact whose path segment is the percent-encoding of the trimmed,
    lower-cased address, a segment that holds nothing but unreserved
    characters and percent escapes (no slash, question mark or hash). *)
Theorem unsubscribe_patches_the_encoded_address
    handleUnsubscribe email env provider calls c q r :
  In handleUnsubscribe revisions_of_handleUnsubscribe ->
  run provider (handleUnsubscribe email env) = (calls, c) ->
  In (q, r) calls ->
  exists s,
    email = Some (JStr s) /\ includes s "@" = true /\
    up_method q = "PATCH" /\
    up_url q = "https://api.resend.com/audiences/" +:+
               ToString (str (RESEND_AUDIENCE_ID env)) +:+ "/contacts/" +:+
               encodeURIComponent (toLowerCase (trim s)) /\
    up_body q = JSON_stringify (JObj [("unsubscribed", JBool true)]) /\
    every segment_char (encodeURIComponent (toLowerCase (trim s))) = true.
Proof.
  intros Hrev Hrun Hin.
  assert (exists cors, handleUnsubscribe = Worker.handleUnsubscribe cors) as [cors ->].
  { destruct Hrev as [<- | [<- | []]]; eexists; reflexivity. }
  exact (wp_run_eq _ _ _ _ _ (unsubscribe_call_shape cors email env) Hrun q r Hin).
Qed.

Lemma unsubscribe_patches_the_encoded_address_witness :
  let email := Some (JStr " Ann/../x?y@Example.com ") in
  let provider := answering 200 (Some (JObj [])) in
  let run1 := run provider (Part000.handleUnsubscribe email example_env) in
  exists q r s,
    In (q, r) run1.1 /\
    email = Some (JStr s) /\ includes s "@" = true /\
    up_method q = "PATCH" /\
    up_url q = "https://api.resend.com/audiences/" +:+
               ToString (str (RESEND_AUDIENCE_ID example_env)) +:+ "/contacts/" +:+
               encodeURIComponent (toLowerCase (trim s)) /\
    up_body q = JSON_stringify (JObj [("unsubscribed", JBool true)]) /\
    every segment_char (encodeURIComponent (toLowerCase (trim s))) = true.
Proof.
  intros email provider run1.
  pose (call := hd (mkUpRequest "" "" ∅ "", Rejected) run1.1).
  assert (Hin : In (fst call, snd call) run1.1).
  { vm_compute. left. reflexivity. }
  destruct (unsubscribe_patches_the_encoded_address Part000.handleUnsubscribe email
              example_env provider run1.1 run1.2 (fst call) (snd call))
    as (s & H).
  - left. reflexivity.
  - apply surjective_pairing.
  - exact Hin.
  - exists (fst call), (snd call), s. split; [exact Hin | exact H].
Defined.

(** X9: once [handleUnsubscribe] has called the provider, the outcome of the
    call alone decides the response: ok gives 200 'You have been
    unsubscribed successfully.' whatever the body; a status that is not ok
    with a JSON body gives 200 'You have been unsubscribed.' on a 404 and 500
    'Failed to unsubscribe' otherwise; a body that is not JSON, or a call
    that fails, gives 500 'Server error'. *)
Theorem unsubscribe_response_follows_the_outcome
    handleUnsubscribe email env provider q f c :
  In handleUnsubscribe revisions_of_handleUnsubscribe ->
  run provider (handleUnsubscribe email env) = ([(q, f)], c) ->
  exists response,
    c = Returned response /\
    status response = fst (unsubscribe_outcome f) /\
    body response = Some (snd (unsubscribe_outcome f)).
Proof.
  intros Hrev Hrun.
  assert (exists cors, handleUnsubscribe = Worker.handleUnsubscribe cors) as [cors ->].
  { destruct Hrev as [<- | [<- | []]]; eexists; reflexivity. }
  exact (wp_run_eq _ _ _ _ _ (unsubscribe_outcome_decides cors email env) Hrun
           q f eq_refl).
Qed.

Lemma unsubscribe_response_follows_the_outcome_witness :
  let email := Some (JStr "ann@example.com") in
  let answer := mkUpResponse 200 None in
  exists q response,
    run (fun _ => Answered answer) (Part001.handleUnsubscribe email example_env) =
      ([(q, Answered answer)], Returned response) /\
    status response = 200 /\
    body response = Some (success_body "You have been unsubscribed successfully.").
Proof.
  intros email answer.
  pose (run1 := run (fun _ => Answered answer)
                  (Part001.handleUnsubscribe email example_env)).
  pose (q := fst (hd (mkUpRequest "" "" ∅ "", Rejected) run1.1)).
  assert (Hrun : exists c, run (fun _ => Answered answer)
                   (Part001.handleUnsubscribe email example_env) =
                 ([(q, Answered answer)], c)).
  { eexists. vm_compute. reflexivity. }
  destruct Hrun as [c Hrun].
  destruct (unsubscribe_response_follows_the_outcome Part001.handleUnsubscribe email
              example_env (fun _ => Answered answer) q (Answered answer) c)
    as (response & -> & Hstatus & Hbody).
  - right. left. reflexivity.
  - exact Hrun.
  - exists q, response. split; [exact Hrun|]. split; [exact Hstatus | exact Hbody].
Defined.

(** X10: once [handleFeedback] has called the provider, the outcome of the
    call alone decides the response: ok gives 200 'Feedback sent! Thanks for
    your input.' whatever the body; a status that is not ok gives 500 'Failed
    to send feedback' when the body is JSON and 500 'Server error' when it is
    not; a call that fails gives 500 'Server error'. *)
Theorem feedback_response_follows_the_outcome
    handleFeedback request env provider q f c :
  In handleFeedback revisions_of_handleFeedback ->
  run provider (handleFeedback request env) = ([(q, f)], c) ->
  exists response,
    c = Returned response /\
    status response = fst (feedback_outcome f) /\
    body response = Some (snd (feedback_outcome f)).
Proof.
  intros [<- | [<- | []]] Hrun.
  - exact (wp_run_eq _ _ _ _ _ (Part000_feedback_outcome_decides request env) Hrun
             q f eq_refl).
  - exact (wp_run_eq _ _ _ _ _ (Index_feedback_outcome_decides request env) Hrun
             q f eq_refl).
Qed.

Lemma feedback_response_follows_the_outcome_witness :
  let request := post "/feedback" (JObj [("message", JStr "Great site")]) in
  let answer := mkUpResponse 403 (Some (JObj [("message", JStr "domain not verified")])) in
  exists q response,
    run (fun _ => Answered answer) (Part000.handleFeedback request example_env) =
      ([(q, Answered answer)], Returned response) /\
    status response = 500 /\
    body response = Some (error_body "Failed to send feedback").
Proof.
  intros request answer.
  pose (run1 := run (fun _ => Answered answer)
                  (Part000.handleFeedback request example_env)).
  pose (q := fst (hd (mkUpRequest "" "" ∅ "", Rejected) run1.1)).
  assert (Hrun : exists c, run (fun _ => Answered answer)
                   (Part000.handleFeedback request example_env) =
                 ([(q, Answered answer)], c)).
  { eexists. vm_compute. reflexivity. }
  destruct Hrun as [c Hrun].
  destruct (feedback_response_follows_the_outcome Part000.handleFeedback request
              example_env (fun _ => Answered answer) q (Answered answer) c)
    as (response & -> & Hstatus & Hbody).
  - left. reflexivity.
  - exact Hrun.
  - exists q, response. split; [exact Hrun|]. split; [exact Hstatus | exact Hbody].
Defined.


Section SignupOutcome.

Variable cors : gmap string string.
Variable parse_error : Z * string.

Lemma signup_outcome_decides on_error request env :
  on_error SyntaxError =
    mkResponse (fst parse_error) (with_content_type cors "application/json")
      (Some (snd parse_error)) ->
  on_error TypeError =
    json_response cors 500 [("error", Some (JStr "Server error"))] ->
  wp (try_catch (handleSignup_try cors request env) (fun e => Return (on_error e)))
    (fun calls c =>
       forall q f, calls = [(q, f)] ->
         exists response,
           c = Returned response /\
           status response = fst (signup_outcome parse_error f) /\
           body response = Some (snd (signup_outcome parse_error f))).
Proof.
  intros Hsyntax Htype.
  unfold handleSignup_try. walk.
  all: rewrite ?Hsyntax, ?Htype.
  all: signup_outcome_leaf.
Qed.

End SignupOutcome.

(** X8: once [handleSignup] has called the provider, the outcome of the call
    alone decides the response.  A body that is not JSON gives the answer of
    the [catch] clause to a parse error (500 'Server error', or 400 'Invalid
    request body' in part_001) even when the status is ok; with a JSON body,
    ok gives 200 'Successfully subscribed!', and a status that is not ok
    gives 200 'Already subscribed!' when the message says 'already exists',
    500 'Server error' when the test of the message throws, and 500 'Failed
    to subscribe' otherwise. *)
Theorem signup_response_follows_the_outcome
    handleSignup parse_error request env provider q f c :
  In (handleSignup, parse_error) revisions_of_handleSignup_with_parse_error ->
  run provider (handleSignup request env) = ([(q, f)], c) ->
  exists response,
    c = Returned response /\
    status response = fst (signup_outcome parse_error f) /\
    body response = Some (snd (signup_outcome parse_error f)).
Proof.
  intros [[= <- <-] | [[= <- <-] | [[= <- <-] | []]]] Hrun.
  - refine (wp_run_eq _ _ _ _ _
              (signup_outcome_decides Part000.CORS_HEADERS _ _ request env _ _) Hrun
              q f eq_refl); reflexivity.
  - refine (wp_run_eq _ _ _ _ _
              (signup_outcome_decides Part001.CORS_HEADERS _ _ request env _ _) Hrun
              q f eq_refl); reflexivity.
  - refine (wp_run_eq _ _ _ _ _
              (signup_outcome_decides Index.CORS_HEADERS _ _ request env _ _) Hrun
              q f eq_refl); reflexivity.
Qed.

Lemma signup_response_follows_the_outcome_witness :
  let request := post "/" (JObj [("email", JStr "ann@example.com")]) in
  let answer := mkUpResponse 429 (Some (JObj [("message", JNum 7)])) in
  exists q response,
    run (fun _ => Answered answer) (Part001.handleSignup request example_env) =
      ([(q, Answered answer)], Returned response) /\
    status response = 500 /\
    body response = Some (error_body "Server error").
Proof.
  intros request answer.
  pose (run1 := run (fun _ => Answered answer)
                  (Part001.handleSignup request example_env)).
  pose (q := fst (hd (mkUpRequest "" "" ∅ "", Rejected) run1.1)).
  assert (Hrun : exists c, run (fun _ => Answered answer)
                   (Part001.handleSignup request example_env) =
                 ([(q, Answered answer)], c)).
  { eexists. vm_compute. reflexivity. }
  destruct Hrun as [c Hrun].
  destruct (signup_response_follows_the_outcome Part001.handleSignup
              (400, error_body "Invalid request body") request
              example_env (fun _ => Answered answer) q (Answered answer) c)
    as (response & -> & Hstatus & Hbody).
  - right. left. reflexivity.
  - exact Hrun.
  - exists q, response. split; [exact Hrun|]. split; [exact Hstatus | exact Hbody].
Defined.

(** * Requests that are turned down before any call *)

Section Validation.

Variable cors : gmap string string.

Lemma feedback_no_message compose request env provider parsed message :
  json request = Some parsed ->
  get parsed "message" = Return message ->
  no_message message = true ->
  run provider (handleFeedback_with cors compose request env) =
  ([], Returned (json_response cors 400 [("error", Some (JStr "Please enter a message"))])).
Proof.
  intros Hjson Hget Hno.
  unfold handleFeedback_with, request_json. rewrite Hjson.
  unfold mbind, Async_bind. cbn [bind]. rewrite Hget.
  destruct parsed; try discriminate Hget; cbn [get bind].
  all: destruct message as [[| | |msg| |]|]; cbn [no_message] in Hno;
    try rewrite Hno; try reflexivity.
  all: apply negb_true_iff in Hno; rewrite Hno; reflexivity.
Qed.

End Validation.

(** X11: [handleFeedback] turns down a feedback whose message is absent, is
    a falsy value, or is a string shorter than three characters once
    trimmed: status 400 with [{error: 'Please enter a message'}], and no
    e-mail is sent. *)
Theorem feedback_rejects_short_message
    handleFeedback request env provider parsed message :
  In handleFeedback revisions_of_handleFeedback ->
  json request = Some parsed ->
  get parsed "message" = Return message ->
  no_message message = true ->
  exists response,
    run provider (handleFeedback request env) = ([], Returned response) /\
    status response = 400 /\
    body response = Some (error_body "Please enter a message").
Proof.
  intros [<- | [<- | []]] Hjson Hget Hno; eexists.
  - split; [eapply feedback_no_message; eassumption|]. split; reflexivity.
  - split; [eapply feedback_no_message; eassumption|]. split; reflexivity.
Qed.

Lemma feedback_rejects_short_message_witness :
  let request := post "/feedback" (JObj [("message", JStr "  ok	 ")]) in
  exists response,
    run (answering 200 None) (Part000.handleFeedback request example_env) =
      ([], Returned response) /\
    status response = 400 /\
    body response = Some (error_body "Please enter a message").
Proof.
  intros request.
  apply (feedback_rejects_short_message Part000.handleFeedback request example_env
           (answering 200 None) (JObj [("message", JStr "  ok	 ")])
           (Some (JStr "  ok	 "))).
  - left. reflexivity.
  - reflexivity.
  - reflexivity.
  - vm_compute. reflexivity.
Defined.

(** X12: in the revision of part_000, a feedback with a valid message whose
    type or e-mail is a truthy value that is no string (a number, [true], an
    array, an object) sends no e-mail: [escapeHtml] throws on it, and the
    response is 500 [{error: 'Server error'}]. *)
Theorem feedback_rejects_values_that_are_no_strings
    request env provider fields message :
  json request = Some (JObj fields) ->
  lookup_field "message" fields = Some (JStr message) ->
  no_message (Some (JStr message)) = false ->
  truthy_not_string (lookup_field "type" fields) ||
  truthy_not_string (lookup_field "email" fields) = true ->
  exists response,
    run provider (Part000.handleFeedback request env) = ([], Returned response) /\
    status response = 500 /\
    body response = Some (error_body "Server error").
Proof.
  intros Hjson Hmessage Hvalid Hbad.
  exists (json_response Part000.CORS_HEADERS 500 [("error", Some (JStr "Server error"))]).
  split; [|split; reflexivity].
  unfold Part000.handleFeedback, handleFeedback_with, request_json.
  rewrite Hjson. unfold mbind, Async_bind. cbn [bind get]. rewrite Hmessage.
  cbn [no_message] in Hvalid. rewrite Hvalid.
  unfold Part000.feedback_mail, mbind, mret, Async_bind, Async_ret.
  unfold truthy_not_string, or_else in *.
  destruct (lookup_field "type" fields) as [[| [|] | n | s | l | l]|];
    cbn [truthy negb andb orb] in Hbad |- *;
    try destruct (n =? 0); try destruct (String.eqb s "");
    cbn [negb andb orb from_option Part000.escapeHtml call_replace bind try_catch run]
      in Hbad |- *; try reflexivity.
  all: destruct (lookup_field "email" fields) as [[| [|] | n' | s' | l' | l']|];
    cbn [truthy negb andb orb] in Hbad |- *;
    try destruct (n' =? 0); try destruct (String.eqb s' "");
    cbn [negb andb orb from_option Part000.escapeHtml call_replace bind try_catch run]
      in Hbad |- *; try discriminate Hbad; reflexivity.
Qed.

Lemma feedback_rejects_values_that_are_no_strings_witness :
  let fields := [("message", JStr "Great site"); ("type", JArr [JStr "<b>"])] in
  exists response,
    run (answering 200 None) (Part000.handleFeedback (post "/feedback" (JObj fields))
                                 example_env) = ([], Returned response) /\
    status response = 500 /\
    body response = Some (error_body "Server error").
Proof.
  intros fields.
  apply (feedback_rejects_values_that_are_no_strings
           (post "/feedback" (JObj fields)) example_env (answering 200 None)
           fields "Great site").
  - reflexivity.
  - reflexivity.
  - reflexivity.
  - reflexivity.
Defined.

(** X13: the revision of part_001 answers a POST whose body is not JSON with
    status 400 and [{error: 'Invalid request body'}], on every path and
    without a call to the provider. *)
Theorem Part001_rejects_malformed_body request env provider :
  method request = "POST" ->
  json request = None ->
  exists response,
    run provider (Part001.fetch request env) = ([], Returned response) /\
    status response = 400 /\
    body response = Some (error_body "Invalid request body").
Proof.
  intros Hmethod Hjson.
  exists (json_response Part001.CORS_HEADERS 400
            [("error", Some (JStr "Invalid request body"))]).
  split; [|split; reflexivity].
  unfold Part001.fetch, Part001.handleSignup, handleSignup_try, request_json.
  rewrite Hmethod, Hjson.
  change (String.eqb "POST" "OPTIONS") with false.
  change (String.eqb "POST" "GET") with false.
  change (String.eqb "POST" "POST") with true.
  unfold mbind, mret, Async_bind, Async_ret.
  destruct (String.eqb (pathname request) "/unsubscribe"); reflexivity.
Qed.

Lemma Part001_rejects_malformed_body_witness :
  let request := mkRequest "POST" "/unsubscribe" None None in
  exists response,
    run (answering 200 None) (Part001.fetch request example_env) =
      ([], Returned response) /\
    status response = 400 /\
    body response = Some (error_body "Invalid request body").
Proof.
  intros request.
  apply (Part001_rejects_malformed_body request example_env (answering 200 None)).
  - reflexivity.
  - reflexivity.
Defined.

(** X16: a request whose method is neither OPTIONS nor POST, and which is no
    GET of /unsubscribe, is answered by every revision with status 405 and
    [{error: 'Method not allowed'}], whatever the path, without a call to the
    provider. *)
Theorem fetch_rejects_other_methods fetch request env provider :
  In fetch revisions_of_fetch ->
  method request <> "OPTIONS" ->
  method request <> "POST" ->
  ~ (method request = "GET" /\ pathname request = "/unsubscribe") ->
  exists response,
    run provider (fetch request env) = ([], Returned response) /\
    status response = 405 /\
    body response = Some (error_body "Method not allowed").
Proof.
  intros Hrev Hoptions Hpost Hget.
  apply String.eqb_neq in Hoptions, Hpost.
  assert (Hget' : String.eqb (pathname request) "/unsubscribe" = true ->
                  String.eqb (method request) "GET" = false).
  { intros Hpath. apply String.eqb_neq. intros Hm. apply Hget.
    split; [assumption | now apply String.eqb_eq]. }
  destruct Hrev as [<- | [<- | [<- | [<- | []]]]]; eexists; split.
  - unfold Part000.fetch. rewrite Hoptions, Hpost. cbn [negb].
    destruct (String.eqb (pathname request) "/unsubscribe"); [|reflexivity].
    rewrite Hget' by reflexivity. reflexivity.
  - split; reflexivity.
  - unfold Part001.fetch. rewrite Hoptions, Hpost. cbn [negb].
    destruct (String.eqb (pathname request) "/unsubscribe"); [|reflexivity].
    rewrite Hget' by reflexivity. reflexivity.
  - split; reflexivity.
  - unfold Index.fetch. rewrite Hoptions, Hpost. reflexivity.
  - split; reflexivity.
  - unfold Original.fetch. rewrite Hoptions, Hpost. reflexivity.
  - split; reflexivity.
Qed.

Lemma fetch_rejects_other_methods_witness :
  let request := mkRequest "DELETE" "/unsubscribe"
                   (Some "ann@example.com")
                   (Some (JObj [("email", JStr "ann@example.com")])) in
  exists response,
    run (answering 200 None) (Part000.fetch request example_env) =
      ([], Returned response) /\
    status response = 405 /\
    body response = Some (error_body "Method not allowed").
Proof.
  intros request.
  apply (fetch_rejects_other_methods Part000.fetch request example_env
           (answering 200 None)).
  - left. reflexivity.
  - discriminate.
  - discriminate.
  - intros [H _]. discriminate H.
Defined.

(** * More about [escapeHtml] *)

Section EscapeMore.

#[local] Arguments String.append !_ _ / : simpl nomatch.

Lemma escaped_by_spec_cons c s :
  escaped_by_spec (String c s) = entity c +:+ escaped_by_spec s.
Proof. cbn [escaped_by_spec]. now rewrite <- entity_by_spec. Qed.

Lemma replace_newlines_app s t :
  replace_newlines (s +:+ t) = replace_newlines s +:+ replace_newlines t.
Proof.
  unfold replace_newlines.
  induction s as [|c s IH]; cbn [replace_class String.append]; [reflexivity|].
  rewrite IH. destruct (Ascii.eqb LF c); reflexivity.
Qed.

(** One character of the message, escaped and with its line end replaced: an
    angle bracket comes out only of a line end, one of each. *)
Lemma entity_brackets c :
  count "<" (replace_newlines (entity c)) = (if Ascii.eqb LF c then 1 else 0)%nat /\
  count ">" (replace_newlines (entity c)) = (if Ascii.eqb LF c then 1 else 0)%nat.
Proof.
  enough (H : Nat.eqb (count "<" (replace_newlines (entity c)))
                (if Ascii.eqb LF c then 1 else 0) &&
              Nat.eqb (count ">" (replace_newlines (entity c)))
                (if Ascii.eqb LF c then 1 else 0) = true).
  { apply andb_true_iff in H as [H1 H2]. now rewrite !Nat.eqb_eq in *. }
  revert c. apply forall_ascii. vm_compute. reflexivity.
Qed.

Lemma special_cases c :
  Part000.special c = true ->
  c = "&"%char \/ c = "<"%char \/ c = ">"%char \/ c = dquote \/ c = squote.
Proof.
  unfold Part000.special. cbn [existsb]. rewrite !orb_true_iff, !Ascii.eqb_eq.
  intuition discriminate.
Qed.

Lemma entity_plain c : Part000.special c = false -> entity c = String c "".
Proof. unfold entity. now intros ->. Qed.

(** An entity starts with an ampersand, and the ampersand is special. *)
Lemma entity_special c :
  Part000.special c = true -> exists rest, entity c = String "&" rest.
Proof.
  intros H. destruct (special_cases c H) as [-> | [-> | [-> | [-> | ->]]]];
    eexists; vm_compute; reflexivity.
Qed.

Lemma escaped_by_spec_injective s t :
  escaped_by_spec s = escaped_by_spec t -> s = t.
Proof.
  revert t. induction s as [|c s IH]; intros [|d t].
  - reflexivity.
  - rewrite escaped_by_spec_cons. cbn [escaped_by_spec].
    destruct (Part000.special d) eqn:Hd.
    + destruct (entity_special d Hd) as [rest ->]. discriminate.
    + rewrite (entity_plain d Hd). discriminate.
  - rewrite escaped_by_spec_cons. cbn [escaped_by_spec].
    destruct (Part000.special c) eqn:Hc.
    + destruct (entity_special c Hc) as [rest ->]. discriminate.
    + rewrite (entity_plain c Hc). discriminate.
  - rewrite !escaped_by_spec_cons.
    destruct (Part000.special c) eqn:Hc, (Part000.special d) eqn:Hd.
    + destruct (special_cases c Hc) as [-> | [-> | [-> | [-> | ->]]]];
        destruct (special_cases d Hd) as [-> | [-> | [-> | [-> | ->]]]];
        vm_compute entity; cbn [String.append]; intros H;
        try discriminate H; injection H as H; now rewrite (IH _ H).
    + destruct (entity_special c Hc) as [rest ->]. rewrite (entity_plain d Hd).
      cbn [String.append]. intros H. injection H as <- _. discriminate Hd.
    + destruct (entity_special d Hd) as [rest ->]. rewrite (entity_plain c Hc).
      cbn [String.append]. intros H. injection H as -> _. discriminate Hc.
    + rewrite (entity_plain c Hc), (entity_plain d Hd). cbn [String.append].
      intros H. injection H as -> H. now rewrite (IH _ H).
Qed.

Lemma length_append s t :
  String.length (s +:+ t) = (String.length s + String.length t)%nat.
Proof.
  induction s as [|c s IH]; cbn [String.length String.append]; [reflexivity|].
  now rewrite IH.
Qed.

Lemma entity_length c :
  (String.length (entity c) >= if Part000.special c then 4 else 1)%nat.
Proof.
  enough (H : Nat.leb (if Part000.special c then 4 else 1)
                (String.length (entity c)) = true).
  { apply Nat.leb_le in H. lia. }
  revert c. apply forall_ascii. vm_compute. reflexivity.
Qed.

(** Escaping does not shorten a string. *)
Lemma escaped_by_spec_length s :
  (String.length (escaped_by_spec s) >= String.length s)%nat.
Proof.
  induction s as [|c s IH]; [cbn; lia|].
  rewrite escaped_by_spec_cons, length_append. cbn [String.length].
  pose proof (entity_length c) as H. destruct (Part000.special c); lia.
Qed.

Lemma escaped_by_spec_fixed s :
  escaped_by_spec s = s <-> every (fun c => negb (Part000.special c)) s = true.
Proof.
  induction s as [|c s IH]; [now split|].
  rewrite escaped_by_spec_cons. cbn [every]. rewrite andb_true_iff, negb_true_iff.
  destruct (Part000.special c) eqn:Hc.
  - split; [|now intros [? _]].
    intros H. apply (f_equal String.length) in H.
    rewrite length_append in H. cbn [String.length] in H.
    pose proof (entity_length c) as Hlen. rewrite Hc in Hlen.
    pose proof (escaped_by_spec_length s). lia.
  - rewrite (entity_plain c Hc). cbn [String.append]. split.
    + intros H. injection H as H. split; [reflexivity | now apply IH].
    + intros [_ H]. f_equal. now apply IH.
Qed.

End EscapeMore.

(** X17: in the HTML of the feedback e-mail, the message, escaped and with
    its line ends turned into [<br>], holds exactly as many [<] and as many
    [>] as the message has line ends: every angle bracket of the markup comes
    from a [<br>] the handler wrote, none from the sender. *)
Theorem feedback_message_brackets message :
  exists out,
    Part000.escapeHtml (JStr message) = Return out /\
    count "<" (replace_newlines out) = count LF message /\
    count ">" (replace_newlines out) = count LF message.
Proof.
  exists (escaped_by_spec message). split; [apply escapeHtml_string|].
  induction message as [|c s [IH1 IH2]]; [now split|].
  rewrite escaped_by_spec_cons, replace_newlines_app, !count_app, IH1, IH2.
  destruct (entity_brackets c) as [-> ->]. cbn [count]. now split.
Qed.

(** X18: [escapeHtml] loses nothing: two strings with the same escaped form
    are the same string. *)
Theorem escapeHtml_is_injective s t out :
  Part000.escapeHtml (JStr s) = Return out ->
  Part000.escapeHtml (JStr t) = Return out ->
  s = t.
Proof.
  rewrite !escapeHtml_string. intros [= <-] [= H].
  symmetry. now apply escaped_by_spec_injective.
Qed.

Lemma escapeHtml_is_injective_witness :
  Part000.escapeHtml (JStr "a<b") = Return "a&lt;b" /\ "a<b" = "a<b".
Proof.
  split; [reflexivity|].
  apply (escapeHtml_is_injective "a<b" "a<b" "a&lt;b"); reflexivity.
Defined.

(** X19: [escapeHtml] returns a string as it is exactly when the string holds
    none of the five special characters. *)
Theorem escapeHtml_fixes_plain_text s :
  Part000.escapeHtml (JStr s) = Return s <->
  every (fun c => negb (Part000.special c)) s = true.
Proof.
  rewrite escapeHtml_string, <- escaped_by_spec_fixed.
  split; [intros [= H]; exact H | intros ->; reflexivity].
Qed.

(** * The feedback e-mail, its other fields *)

Section MailFields.

Lemma slice0_prefix n s : String.prefix (slice0 n s) s = true.
Proof.
  revert s. induction n as [|n IH]; intros [|c s]; cbn [slice0 String.prefix];
    try reflexivity.
  destruct (ascii_dec c c); [apply IH | congruence].
Qed.

Lemma slice0_length n s : String.length (slice0 n s) = Nat.min n (String.length s).
Proof.
  revert s. induction n as [|n IH]; intros [|c s]; cbn [slice0 String.length Nat.min];
    try reflexivity.
  now rewrite IH.
Qed.

Lemma Part000_feedback_mail_fields request env :
  wp (Part000.handleFeedback request env) (fun calls c =>
    forall q r, In (q, r) calls ->
      exists sent m mail,
        json request = Some (JObj sent) /\
        lookup_field "message" sent = Some (JStr m) /\
        up_body q = JSON_stringify (JObj mail) /\
        lookup_field "to" mail = str (ADMIN_EMAIL env) /\
        lookup_field "reply_to" mail = or_else (lookup_field "email" sent) undefined /\
        lookup_field "subject" mail =
          Some (JStr ("[50-Point Alerts] New " +:+
                      ToString (or_else (lookup_field "type" sent)
                                  (Some (JStr "Feedback"))) +:+
                      ": " +:+ slice0 50 m +:+ "..."))).
Proof.
  unfold Part000.handleFeedback, handleFeedback_with, Part000.feedback_mail,
    send_feedback.
  walk.
  all: intros q' r' Hin; split_calls.
  all: cbn [up_body]; unfold object.
  all: destruct (ADMIN_EMAIL env),
         (or_else (lookup_field "email" fields) undefined) eqn:Hreply.
  all: eexists _, _, _.
  all: split; [reflexivity|]; split; [eassumption|]; split; [reflexivity|].
  all: rewrite Hreply;
       match goal with
       | H : or_else (lookup_field "type" _) _ = _ |- _ => rewrite H
       end.
  all: cbn [defined_props str fmap option_fmap option_map lookup_field];
       eval_tests; repeat split; exact eq_refl.
Qed.

End MailFields.

(** X20: the e-mail [handleFeedback] of part_000 sends has the recipient
    [env.ADMIN_EMAIL], and none when the variable is not set; it has a
    [reply_to] exactly when the sender gave a truthy e-mail, which it then
    is; its subject carries, after the type, the first 50 characters of the
    message at most, and '...' behind them whether anything was cut or
    not. *)
Theorem feedback_mail_fields request env provider calls c q r :
  run provider (Part000.handleFeedback request env) = (calls, c) ->
  In (q, r) calls ->
  exists sent m mail head,
    json request = Some (JObj sent) /\
    lookup_field "message" sent = Some (JStr m) /\
    up_body q = JSON_stringify (JObj mail) /\
    lookup_field "to" mail = str (ADMIN_EMAIL env) /\
    lookup_field "reply_to" mail = or_else (lookup_field "email" sent) undefined /\
    lookup_field "subject" mail =
      Some (JStr ("[50-Point Alerts] New " +:+
                  ToString (or_else (lookup_field "type" sent)
                              (Some (JStr "Feedback"))) +:+
                  ": " +:+ head +:+ "...")) /\
    String.prefix head m = true /\
    String.length head = Nat.min 50 (String.length m).
Proof.
  intros Hrun Hin.
  destruct (wp_run_eq _ _ _ _ _ (Part000_feedback_mail_fields request env) Hrun
              q r Hin) as (sent & m & mail & H1 & H2 & H3 & H4 & H5 & H6).
  exists sent, m, mail, (slice0 50 m).
  repeat (split; [assumption|]).
  split; [apply slice0_prefix | apply slice0_length].
Qed.

Lemma feedback_mail_fields_witness :
  let request := post "/feedback" (JObj [("message", JStr "Hi!")]) in
  let env := mkEnv (Some "re_key") None None None in
  let run1 := run (answering 200 None) (Part000.handleFeedback request env) in
  exists q r mail,
    In (q, r) run1.1 /\
    up_body q = JSON_stringify (JObj mail) /\
    lookup_field "to" mail = None /\
    lookup_field "reply_to" mail = None /\
    lookup_field "subject" mail = Some (JStr "[50-Point Alerts] New Feedback: Hi!...").
Proof.
  intros request env run1.
  pose (call := hd (mkUpRequest "" "" ∅ "", Rejected) run1.1).
  assert (Hin : In (fst call, snd call) run1.1).
  { vm_compute. left. reflexivity. }
  destruct (feedback_mail_fields request env (answering 200 None) run1.1 run1.2
              (fst call) (snd call))
    as (sent & m & mail & head & Hjson & Hm & Hbody & Hto & Hreply & Hsubject & Hpre & Hlen).
  - apply surjective_pairing.
  - exact Hin.
  - injection Hjson as <-. injection Hm as <-.
    exists (fst call), (snd call), mail.
    split; [exact Hin|]. split; [exact Hbody|]. split; [exact Hto|].
    split; [exact Hreply|].
    rewrite Hsubject. destruct head as [|a [|b [|c [|d head]]]]; try discriminate Hlen.
    cbn in Hpre.
    repeat match type of Hpre with
           | (if ?t then _ else _) = true =>
               destruct t; [subst | discriminate Hpre]
           end.
    reflexivity.
Defined.

(** * Bodies that are not JSON, before part_001 *)

(** X14: the revisions before part_001 answer a POST whose body is not JSON
    with status 500 and [{error: 'Server error'}], without a call to the
    provider: on every path in worker/index.js and in the first revision, on
    every path but /unsubscribe in part_000. *)
Theorem earlier_revisions_answer_500_to_malformed_body fetch request env provider :
  In fetch [Part000.fetch; Index.fetch; Original.fetch] ->
  method request = "POST" ->
  (fetch = Part000.fetch -> pathname request <> "/unsubscribe") ->
  json request = None ->
  exists response,
    run provider (fetch request env) = ([], Returned response) /\
    status response = 500 /\
    body response = Some (error_body "Server error").
Proof.
  intros Hrev Hmethod Hpath Hjson.
  destruct Hrev as [<- | [<- | [<- | []]]]; eexists; split.
  - specialize (Hpath eq_refl). apply String.eqb_neq in Hpath.
    unfold Part000.fetch, Part000.handleSignup, Part000.handleFeedback,
      handleFeedback_with, handleSignup_try, request_json.
    rewrite Hmethod, Hjson, Hpath.
    change (String.eqb "POST" "OPTIONS") with false.
    change (String.eqb "POST" "POST") with true.
    destruct (String.eqb (pathname request) "/feedback"); reflexivity.
  - split; reflexivity.
  - unfold Index.fetch, Index.handleSignup, Index.handleFeedback,
      handleFeedback_with, handleSignup_try, request_json.
    rewrite Hmethod, Hjson.
    change (String.eqb "POST" "OPTIONS") with false.
    change (String.eqb "POST" "POST") with true.
    destruct (String.eqb (pathname request) "/feedback"); reflexivity.
  - split; reflexivity.
  - unfold Original.fetch, handleSignup_try, request_json.
    rewrite Hmethod, Hjson.
    change (String.eqb "POST" "OPTIONS") with false.
    change (String.eqb "POST" "POST") with true.
    reflexivity.
  - split; reflexivity.
Qed.

Lemma earlier_revisions_answer_500_to_malformed_body_witness :
  let request := mkRequest "POST" "/feedback" None None in
  exists response,
    run (answering 200 None) (Part000.fetch request example_env) =
      ([], Returned response) /\
    status response = 500 /\
    body response = Some (error_body "Server error").
Proof.
  intros request.
  apply (earlier_revisions_answer_500_to_malformed_body Part000.fetch request
           example_env (answering 200 None)).
  - left. reflexivity.
  - reflexivity.
  - intros _. discriminate.
  - reflexivity.
Defined.

(** X15: [fetch] of part_000 ends with an exception, and so returns no
    response, exactly on a POST to /unsubscribe whose body is not JSON or is
    [null]: the body is read outside of any [try]. *)
Theorem Part000_fetch_throws_exactly_on request env provider :
  (exists e, (run provider (Part000.fetch request env)).2 = Threw e) <->
  (method request = "POST" /\ pathname request = "/unsubscribe" /\
   (json request = None \/ json request = Some JNull)).
Proof.
  split.
  - intros [e He].
    destruct (wp_run _ _ provider (proj1 (fetch_returns request env)))
      as [[response Hresponse] | H]; [congruence | exact H].
  - intros (Hmethod & Hpath & Hjson).
    unfold Part000.fetch, request_json. rewrite Hmethod, Hpath.
    change (String.eqb "POST" "OPTIONS") with false.
    change (String.eqb "POST" "GET") with false.
    change (String.eqb "POST" "POST") with true.
    change (String.eqb "/unsubscribe" "/unsubscribe") with true.
    destruct Hjson as [-> | ->]; eexists; reflexivity.
Qed.
